(** * PCA.py: coordinate extraction, feature matrix, metric table, plotting

    A shallow embedding of [src/PCA.py] (class [Principal_component_analysis])
    and the properties of its specification.

    Python values are modelled as the code uses them: text as [string]
    (ASCII), a Python [dict] keyed by strings as a [gmap], the mapping of
    conformations as an insertion-ordered association list (only its keys are
    iterated, through [sorted]), lists and numpy arrays of floats as lists.
    Floating-point numbers, the builtin [float], Python's [round] and
    scikit-learn's PCA are external to the repository and enter through the
    class [Numerics].  Printing, plotting calls and written files are recorded
    as a trace of events; exceptions (including [sys.exit]) are results. *)

From Stdlib Require Import ZArith Ascii String List Permutation.
From stdpp Require Import base option list gmap strings sorting.

Open Scope string_scope.
Open Scope list_scope.

(** ** Python text operations *)

Module Py.

(** [str.isspace] on an ASCII character: tab, newline, vertical tab, form
    feed, carriage return, the four separators 28..31 and the blank. *)
Definition isspace (c : ascii) : bool :=
  match c with
  | "009" | "010" | "011" | "012" | "013"
  | "028" | "029" | "030" | "031" | " " => true
  | _ => false
  end%char.

Definition is_upper (c : ascii) : bool :=
  let n := nat_of_ascii c in (65 <=? n)%nat && (n <=? 90)%nat.

Definition is_lower (c : ascii) : bool :=
  let n := nat_of_ascii c in (97 <=? n)%nat && (n <=? 122)%nat.

Definition is_digit (c : ascii) : bool :=
  let n := nat_of_ascii c in (48 <=? n)%nat && (n <=? 57)%nat.

Fixpoint all_chars (p : ascii → bool) (s : string) : bool :=
  match s with
  | "" => true
  | String c s' => p c && all_chars p s'
  end.

Definition nonempty (s : string) : bool :=
  match s with "" => false | _ => true end.

(** [s.isalpha()]: at least one character and all of them letters. *)
Definition isalpha (s : string) : bool :=
  nonempty s && all_chars (λ c, is_upper c || is_lower c) s.

(** [s.isdigit()]: at least one character and all of them digits. *)
Definition isdigit (s : string) : bool :=
  nonempty s && all_chars is_digit s.

(** [s.split()]: the maximal runs of non-blank characters.  [cur] holds the
    characters of the run being read, last one first. *)
Fixpoint split_go (cur : string) (s : string) : list string :=
  match s with
  | "" => if nonempty cur then [String.rev cur] else []
  | String c s' =>
      if isspace c
      then (if nonempty cur then [String.rev cur] else []) ++ split_go "" s'
      else split_go (String c cur) s'
  end.

Definition split (s : string) : list string := split_go "" s.

(** [s[i:j]] for [0 <= i <= j]: out-of-range bounds are clipped. *)
Definition slice (i j : nat) (s : string) : string := substring i (j - i) s.

Fixpoint lstrip_chars (p : ascii → bool) (s : string) : string :=
  match s with
  | "" => ""
  | String c s' => if p c then lstrip_chars p s' else s
  end.

(** [s.strip()] *)
Definition strip (s : string) : string :=
  String.rev (lstrip_chars isspace (String.rev (lstrip_chars isspace s))).

(** [s.lstrip("0")] *)
Definition lstrip0 (s : string) : string :=
  lstrip_chars (λ c, bool_decide (c = "0"%char)) s.

(** [s.split("_")[0]]: the text before the first underscore, the whole of
    [s] when it has none.  ([split] with a separator never returns an empty
    list, so index 0 always exists.) *)
Fixpoint split_underscore_0 (s : string) : string :=
  match s with
  | "" => ""
  | String c s' =>
      if bool_decide (c = "_"%char) then "" else String c (split_underscore_0 s')
  end.

End Py.

(** ** Values, exceptions and effects *)

(** The numeric world outside the repository: the type of floats, the
    builtin [float] on a stripped field ([None] is its [ValueError]), the
    expression [round(100 * pc, 2)], and [PCA(n_components=dim)] fitted and
    applied to the feature matrix, giving the projected rows and the
    explained variance ratios ([None] is an exception of the library). *)
Class Numerics (F : Type) := {
  float : string → option F;
  round_pct : F → F;
  pca_fit_transform : Z → list (list F) → option (list (list F) * list F)
}.

(** The structure-complex collaborator, by the two lists it returns. *)
Record Complex := {
  getResiduesConsensus : list string;
  getResidues : list string
}.

Inductive pyval (F : Type) :=
| VStr (s : string)
| VNum (x : F)
| VComplex (c : Complex).
Arguments VStr {F} s.
Arguments VNum {F} x.
Arguments VComplex {F} c.

Inductive exn :=
| SystemExit
| IndexError
| ValueError
| KeyError
| TypeError
| AttributeError
| IOError
| UnboundLocalError.

Inductive result (A : Type) :=
| Ok (a : A)
| Raise (e : exn).
Arguments Ok {A} a.
Arguments Raise {A} e.

(** The pieces of one printed line, in order. *)
Inductive pitem (F : Type) :=
| PStr (s : string)
| PInt (n : Z)
| PNums (xs : list F).
Arguments PStr {F} s.
Arguments PInt {F} n.
Arguments PNums {F} xs.

(** How a scatter call colours its points. *)
Inductive colour (F : Type) :=
| Fixed (name : string)
| Magma01 (c : list (pyval F)).
Arguments Fixed {F} name.
Arguments Magma01 {F} c.

Inductive event (F : Type) :=
| Print (items : list (pitem F))
| Figure (title : string)
| Scatter (columns : list (list F)) (marker : string) (c : colour F)
| Annotate (label : string) (point : list F)
| AxisLabel (axis : string) (pc : F)
| Colorbar (name : option string)
| Savefig (fname : string).
Arguments Print {F} items.
Arguments Figure {F} title.
Arguments Scatter {F} columns marker c.
Arguments Annotate {F} label point.
Arguments AxisLabel {F} axis pc.
Arguments Colorbar {F} name.
Arguments Savefig {F} fname.

(** Code that prints and may raise: the trace so far and the result. *)
Definition IO (F : Type) (A : Type) : Type := list (event F) * result A.

Definition io_ret {F A} (a : A) : IO F A := ([], Ok a).

Definition io_bind {F A B} (m : IO F A) (k : A → IO F B) : IO F B :=
  match m with
  | (t, Ok a) => let '(t', r) := k a in (t ++ t', r)
  | (t, Raise e) => (t, Raise e)
  end.

Definition io_raise {F A} (e : exn) : IO F A := ([], Raise e).

Definition io_print {F} (items : list (pitem F)) : IO F unit :=
  ([Print items], Ok tt).

Notation "x ←ᵢ m ; k" := (io_bind m (λ x, k))
  (at level 20, m at level 100, k at level 200, only parsing, right associativity).
Notation "' p ←ᵢ m ; k" := (io_bind m (λ x, match x with p => k end))
  (at level 20, p pattern, m at level 100, k at level 200, only parsing,
   right associativity).
Notation "m ;;ᵢ k" := (io_bind m (λ _, k))
  (at level 100, k at level 200, only parsing, right associativity).

Arguments io_ret : simpl never.
Arguments io_bind : simpl never.
Arguments io_raise : simpl never.
Arguments io_print : simpl never.

(** [for x in xs: acc = body(acc, x)] *)
Fixpoint io_fold {F A B} (body : B → A → IO F B) (acc : B) (xs : list A) : IO F B :=
  match xs with
  | [] => io_ret acc
  | x :: xs' => acc' ←ᵢ body acc x; io_fold body acc' xs'
  end.

(** [l[i]] on a Python list *)
Definition io_index {F A} (l : list A) (i : nat) : IO F A :=
  match l !! i with
  | Some a => io_ret a
  | None => io_raise IndexError
  end.

(** ** The coordinate extractor: [getPDBcoord] *)

Section Extractor.
Context {F : Type} `{!Numerics F}.

(** [float(line[i:j].strip())] *)
Definition float_field (i j : nat) (line : string) : IO F F :=
  match float (Py.strip (Py.slice i j line)) with
  | Some x => io_ret x
  | None => io_raise ValueError
  end.

Definition unrecognized_msg : string :=
  "Unrecognized pdb format, check number of columns. Exiting.".

(** The body of the loop over [pdbLines], lines 98 to 123. *)
Definition getPDBcoord_line (resNumbers : list string)
    (confCoords : list F) (line : string) : IO F (list F) :=
  let ll := Py.split line in
  let colCount := length ll in
  if (1 <? colCount)%nat then
    ll0 ←ᵢ io_index ll 0;
    if bool_decide (ll0 = "ATOM") then
      ll4 ←ᵢ io_index ll 4;
      resCol ←ᵢ (if Py.isalpha ll4 then io_ret 5%nat
                 else if Py.isdigit ll4 then io_ret 4%nat
                 else (io_print [PStr unrecognized_msg] ;;ᵢ io_raise SystemExit));
      res ←ᵢ io_index ll resCol;
      if bool_decide (res ∈ resNumbers) then
        ll2 ←ᵢ io_index ll 2;
        if bool_decide (ll2 = "CA") then
          xCoord ←ᵢ float_field 31 39 line;
          yCoord ←ᵢ float_field 39 47 line;
          zCoord ←ᵢ float_field 47 55 line;
          io_ret (((confCoords ++ [xCoord]) ++ [yCoord]) ++ [zCoord])
        else io_ret confCoords
      else io_ret confCoords
    else io_ret confCoords
  else io_ret confCoords.

(** [open(pdbPath).readlines()] on a file system given as a map from paths
    to the lines of the file, then the loop. *)
Definition getPDBcoord (fs : gmap string (list string))
    (pdbPath : string) (resNumbers : list string) : IO F (list F) :=
  match fs !! pdbPath with
  | None => io_raise IOError
  | Some pdbLines => io_fold (getPDBcoord_line resNumbers) [] pdbLines
  end.

End Extractor.

(** ** The instance and its methods *)

(** Code that also reads and assigns the attributes of [self]: the state at
    the end (or at the point of the exception), the trace and the result. *)
Definition M (S F : Type) (A : Type) : Type := S → S * IO F A.

Definition m_ret {S F A} (a : A) : M S F A := λ s, (s, io_ret a).

Definition m_bind {S F A B} (m : M S F A) (k : A → M S F B) : M S F B :=
  λ s,
    match m s with
    | (s1, (t, Ok a)) => let '(s2, (t', r)) := k a s1 in (s2, (t ++ t', r))
    | (s1, (t, Raise e)) => (s1, (t, Raise e))
    end.

Definition m_lift {S F A} (io : IO F A) : M S F A := λ s, (s, io).

Definition m_get {S F} : M S F S := λ s, (s, io_ret s).

Definition m_put {S F} (s' : S) : M S F unit := λ _, (s', io_ret tt).

Notation "x ← m ; k" := (m_bind m (λ x, k))
  (at level 20, m at level 100, k at level 200, only parsing, right associativity).
Notation "m ;; k" := (m_bind m (λ _, k))
  (at level 100, k at level 200, only parsing, right associativity).

Arguments m_ret : simpl never.
Arguments m_bind : simpl never.
Arguments m_lift : simpl never.
Arguments m_get : simpl never.
Arguments m_put : simpl never.

(** [for x in xs: body(x)] *)
Fixpoint m_for {S F A} (xs : list A) (body : A → M S F unit) : M S F unit :=
  match xs with
  | [] => m_ret tt
  | x :: xs' => body x ;; m_for xs' body
  end.

(** [d[k]] on a [dict] held as an association list (first binding wins;
    the keys of a [dict] are distinct). *)
Fixpoint assoc_get {V} (d : list (string * V)) (k : string) : option V :=
  match d with
  | [] => None
  | (k', v) :: d' => if bool_decide (k' = k) then Some v else assoc_get d' k
  end.

Definition io_getitem {F V} (o : option V) : IO F V :=
  match o with
  | Some v => io_ret v
  | None => io_raise KeyError
  end.

(** [sorted] on a list of strings: ascending in the lexicographic order of
    the character codes. *)
Definition sorted (l : list string) : list string := merge_sort String.le l.

(** [[x.split("_")[0].lstrip("0") for x in resList]] *)
Definition resNumbers_of (resList : list string) : list string :=
  (λ x, Py.lstrip0 (Py.split_underscore_0 x)) <$> resList.

Definition nl : string := String "010" "".
Definition tab : string := String "009" "".

Definition mismatch_msg : string :=
  nl +:+ "Number of coordinates not identical amongst conformations".

Definition empty_msg : string :=
  "No coordinates were passed to the PCA plotting function. Exiting.".

Section Instance_methods.
Context {F : Type} `{!Numerics F}.

Record Self := {
  conformations : list (string * gmap string (pyval F));
  pcaCoordsArray : option (list (list F));
  vars_data : option (gmap string (list (pyval F)))
}.

(** [__init__] *)
Definition init (conformations : list (string * gmap string (pyval F))) : Self :=
  {| conformations := conformations; pcaCoordsArray := None; vars_data := None |}.

Definition set_pcaCoordsArray (a : list (list F)) (self : Self) : Self :=
  {| conformations := conformations self;
     pcaCoordsArray := Some a;
     vars_data := vars_data self |}.

Definition set_vars_data (v : gmap string (list (pyval F))) (self : Self) : Self :=
  {| conformations := conformations self;
     pcaCoordsArray := pcaCoordsArray self;
     vars_data := Some v |}.

(** The body of the loop of [makePCAcoords], lines 43 to 61. *)
Definition makePCAcoords_conf (fs : gmap string (list string))
    (consensusResidues : bool)
    (confs : list (string * gmap string (pyval F)))
    (allConfCoords : list (list F)) (confName : string) : IO F (list (list F)) :=
  conformationDict ←ᵢ io_getitem (assoc_get confs confName);
  confPath ←ᵢ io_getitem (conformationDict !! "path");
  cplx ←ᵢ io_getitem (conformationDict !! "complex");
  resList ←ᵢ match cplx with
             | VComplex c =>
                 io_ret (if consensusResidues then getResiduesConsensus c
                         else getResidues c)
             | _ => io_raise AttributeError
             end;
  let resNumbers := resNumbers_of resList in
  pdbPath ←ᵢ match confPath with
             | VStr p => io_ret p
             | _ => io_raise TypeError
             end;
  confCoords ←ᵢ getPDBcoord fs pdbPath resNumbers;
  io_ret (allConfCoords ++ [confCoords]).

(** [all([len(x) == len(arr[0]) for x in arr])]; [arr[0]] is only evaluated
    for an element of [arr], so it exists whenever it is needed. *)
Definition same_lengths (arr : list (list F)) : bool :=
  forallb (λ x, bool_decide (length x = length (default [] (head arr)))) arr.

(** [all([x.size == 0 for x in arr])] *)
Definition all_empty (arr : list (list F)) : bool :=
  forallb (λ x, bool_decide (length x = 0%nat)) arr.

(** [np.array(allConfCoords)] keeps the rows: a two-dimensional array when
    they have one length, otherwise a one-dimensional array of the row
    objects (numpy before 1.24).  [len] applies to the rows of both, and
    [size] is only reached when the rows have one length. *)
Definition np_array (rows : list (list F)) : list (list F) := rows.

Definition makePCAcoords (fs : gmap string (list string))
    (consensusResidues : bool) : M Self F unit :=
  self ← m_get;
  let sortedConfNames := sorted (conformations self).*1 in
  allConfCoords ←
    m_lift (io_fold (makePCAcoords_conf fs consensusResidues (conformations self))
                    [] sortedConfNames);
  m_put (set_pcaCoordsArray (np_array allConfCoords) self) ;;
  let arr := np_array allConfCoords in
  (if negb (same_lengths arr) then
     m_lift (io_print [PStr mismatch_msg]) ;;
     m_for (zip sortedConfNames arr)
           (λ '(confName, coords),
              m_lift (io_print [PStr confName; PStr tab;
                                PInt (Z.of_nat (length coords))])) ;;
     m_lift (io_print [PStr "Exiting."]) ;;
     m_lift (io_raise SystemExit)
   else m_ret tt) ;;
  (if all_empty arr then
     m_lift (io_print [PStr empty_msg]) ;;
     m_lift (io_raise SystemExit)
   else m_ret tt).

(** The innermost statement of [makePCAmetric], lines 149 and 150. *)
Definition makePCAmetric_var (conformationDict : gmap string (pyval F))
    (varName : string) : M Self F unit :=
  confVar ← m_lift (io_getitem (conformationDict !! varName));
  self ← m_get;
  table ← m_lift (match vars_data self with
                  | Some t => io_ret t
                  | None => io_raise TypeError
                  end);
  values ← m_lift (io_getitem (table !! varName));
  m_put (set_vars_data (<[varName := values ++ [confVar]]> table) self).

(** The body of the loop of [makePCAmetric], lines 142 to 150. *)
Definition makePCAmetric_conf (confName : string) : M Self F unit :=
  self ← m_get;
  conformationDict ← m_lift (io_getitem (assoc_get (conformations self) confName));
  table ← m_lift (match vars_data self with
                  | Some t => io_ret t
                  | None => io_raise AttributeError
                  end);
  let sorted_var_names := sorted (map_to_list table).*1 in
  m_for sorted_var_names (makePCAmetric_var conformationDict).

Definition makePCAmetric (metric : string) : M Self F unit :=
  self ← m_get;
  m_put (set_vars_data (<[metric := []]> ∅) self) ;;
  self ← m_get;
  let sortedConfNames := sorted (conformations self).*1 in
  m_for sortedConfNames makePCAmetric_conf.

End Instance_methods.
Arguments Self F : clear implicits.

(** ** The renderer *)

Section Renderer.
Context {F : Type} `{!Numerics F}.

Definition io_emit (e : event F) : IO F unit := ([e], Ok tt).

(** [for x in xs: body(x)] in code that only prints, draws or raises *)
Definition io_for {A} (xs : list A) (body : A → IO F unit) : IO F unit :=
  io_fold (λ _ x, body x) tt xs.

(** [a[:, k]] on the two-dimensional array of projected rows. *)
Definition column (k : nat) (rows : list (list F)) : IO F (list F) :=
  match mapM (λ r : list F, r !! k) rows with
  | Some c => io_ret c
  | None => io_raise IndexError
  end.

(** [np.array(rows)[:, k]] for rows collected in a Python list: with no
    row the array is one-dimensional and the index raises. *)
Definition np_column (k : nat) (rows : list (list F)) : IO F (list F) :=
  match rows with
  | [] => io_raise IndexError
  | _ => column k rows
  end.

(** The loop of lines 249 to 257: the positions of the template points, and
    the metric values and positions of the other points. *)
Definition split_templates (labels : list string) (varData : list (pyval F))
    (X_r : list (list F)) (template_list : list string)
    : list (list F) * list (pyval F) * list (list F) :=
  foldl (λ '(templatePosition, confData, confPosition) '(l, (d, x)),
           if bool_decide (l ∈ template_list)
           then (templatePosition ++ [x], confData, confPosition)
           else (templatePosition, confData ++ [d], confPosition ++ [x]))
        ([], [], []) (zip labels (zip varData X_r)).

(** Annotation of every point, lines 282-284 and 359-361 (the text is
    placed by the renderer a fixed offset above the point). *)
Definition annotate_2d (labels : list string) (xs ys : list F) : IO F unit :=
  io_for (zip labels (zip xs ys))
         (λ '(label, (x, y)), io_emit (Annotate label [x; y])).

(** Annotation of the points with a label, lines 319-323 and 374-378 (the
    text is placed by the renderer at the projection of the point). *)
Definition annotate_3d (labels : list string) (xs ys zs : list F) : IO F unit :=
  io_for (zip labels (zip xs (zip ys zs)))
         (λ '(label, (x, (y, z))),
            if bool_decide (label ≠ "")
            then io_emit (Annotate label [x; y; z])
            else io_ret tt).

Definition axis_label (axis : string) (PCs_round : list F) (k : nat) : IO F unit :=
  pc ←ᵢ io_index PCs_round k;
  io_emit (AxisLabel axis pc).

Definition pcaSubplot_vars (X_r : list (list F)) (dim : Z)
    (varData : list (pyval F)) (varName : option string) (PCs_round : list F)
    (labels template_list : list string) : IO F unit :=
  let '(templatePosition, confData, confPosition) :=
    split_templates labels varData X_r template_list in
  (if bool_decide (dim = 2%Z) then
     io_emit (Figure "PCA 2D") ;;ᵢ
     c0 ←ᵢ np_column 0 confPosition;
     c1 ←ᵢ np_column 1 confPosition;
     io_emit (Scatter [c0; c1] "o" (Magma01 confData)) ;;ᵢ
     t0 ←ᵢ np_column 0 templatePosition;
     t1 ←ᵢ np_column 1 templatePosition;
     io_emit (Scatter [t0; t1] "v" (Fixed "black")) ;;ᵢ
     x0 ←ᵢ column 0 X_r;
     x1 ←ᵢ column 1 X_r;
     annotate_2d labels x0 x1 ;;ᵢ
     axis_label "PC1" PCs_round 0 ;;ᵢ
     axis_label "PC2" PCs_round 1 ;;ᵢ
     io_emit (Colorbar varName)
   else io_ret tt) ;;ᵢ
  (if bool_decide (dim = 3%Z) then
     io_emit (Figure "PCA 3D") ;;ᵢ
     c0 ←ᵢ np_column 0 confPosition;
     c1 ←ᵢ np_column 1 confPosition;
     c2 ←ᵢ np_column 2 confPosition;
     io_emit (Scatter [c0; c1; c2] "o" (Magma01 confData)) ;;ᵢ
     t0 ←ᵢ np_column 0 templatePosition;
     t1 ←ᵢ np_column 1 templatePosition;
     t2 ←ᵢ np_column 2 templatePosition;
     io_emit (Scatter [t0; t1; t2] "v" (Fixed "black")) ;;ᵢ
     x0 ←ᵢ column 0 X_r;
     x1 ←ᵢ column 1 X_r;
     x2 ←ᵢ column 2 X_r;
     annotate_3d labels x0 x1 x2 ;;ᵢ
     axis_label "PC1" PCs_round 0 ;;ᵢ
     axis_label "PC2" PCs_round 1 ;;ᵢ
     axis_label "PC3" PCs_round 2 ;;ᵢ
     io_emit (Colorbar varName)
   else io_ret tt).

(** [Axes3D.scatter(ax, xs, ys, zs, size=600, marker="o")], lines 370 and
    371: the keyword [size] is handed to the collection of points, which has
    no such property, so the call raises AttributeError whatever the points
    are, and nothing is drawn. *)
Definition scatter_size (columns : list (list F)) (marker : string) : IO F unit :=
  io_raise AttributeError.

Definition pcaSubplot (X_r : list (list F)) (dim : Z) (PCs_round : list F)
    (labels template_list : list string) : IO F unit :=
  (if bool_decide (dim = 2%Z) then
     io_emit (Figure "PCA 2D") ;;ᵢ
     x0 ←ᵢ column 0 X_r;
     x1 ←ᵢ column 1 X_r;
     io_emit (Scatter [x0; x1] "v" (Fixed "black")) ;;ᵢ
     x0 ←ᵢ column 0 X_r;
     x1 ←ᵢ column 1 X_r;
     annotate_2d labels x0 x1
   else io_ret tt) ;;ᵢ
  (if bool_decide (dim = 3%Z) then
     io_emit (Figure "PCA 3D") ;;ᵢ
     x0 ←ᵢ column 0 X_r;
     x1 ←ᵢ column 1 X_r;
     x2 ←ᵢ column 2 X_r;
     scatter_size [x0; x1; x2] "o" ;;ᵢ
     x0 ←ᵢ column 0 X_r;
     x1 ←ᵢ column 1 X_r;
     x2 ←ᵢ column 2 X_r;
     annotate_3d labels x0 x1 x2
   else io_ret tt) ;;ᵢ
  (* [ax] is only assigned in the two branches above *)
  (if bool_decide (dim = 2%Z) || bool_decide (dim = 3%Z) then io_ret tt
   else io_raise UnboundLocalError) ;;ᵢ
  axis_label "PC1" PCs_round 0 ;;ᵢ
  axis_label "PC2" PCs_round 1 ;;ᵢ
  (if bool_decide (dim = 3%Z) then axis_label "PC3" PCs_round 2
   else io_ret tt).

(** Reading a local variable that an earlier branch may not have assigned. *)
Definition io_local {A} (v : option A) : IO F A :=
  match v with
  | Some a => io_ret a
  | None => io_raise UnboundLocalError
  end.

Definition missing_metric_msg : string :=
  "The variable {} is not in the loaded set".

(** Lines 186 to 201: the locals [var_data] and [var_axis] after the
    lookup of the metric; [None] on the outside is a local not assigned. *)
Definition select_metric (table : option (gmap string (list (pyval F))))
    (metric : string)
    : IO F (option (option (list (pyval F))) * option (option string)) :=
  match table with
  | Some t =>
      match t !! metric with
      | Some var_data =>
          let var_axis :=
            if bool_decide (metric = "tanimoto") then "Tanimoto coefficient"
            else if bool_decide (metric = "jaccard") then "Jaccard distance"
            else metric in
          io_ret (Some (Some var_data), Some (Some var_axis))
      | None =>
          io_print [PStr missing_metric_msg] ;;ᵢ
          io_ret (None, None)
      end
  | None => io_ret (Some None, Some None)
  end.

(** Lines 205 to 210 and 218 to 223: the choice of the rendering.
    [if var_data:] holds for a list with at least one element, and fails for
    [None] and for the empty list. *)
Definition render (X_r : list (list F)) (dim : Z)
    (var_data : option (option (list (pyval F))))
    (var_axis : option (option string)) (PCs_round : list F)
    (labels templates : list string) : IO F unit :=
  d ←ᵢ io_local var_data;
  match d with
  | Some ((_ :: _) as varData) =>
      varName ←ᵢ io_local var_axis;
      pcaSubplot_vars X_r dim varData varName PCs_round labels templates
  | _ => pcaSubplot X_r dim PCs_round labels templates
  end.

Definition plotPCAfig (projName metric : string) (labels : list string)
    (dim : Z) (templates : list string) : M (Self F) F unit :=
  self ← m_get;
  match pcaCoordsArray self with
  | Some arr =>
      m_lift (
        '(X_r, ratio) ←ᵢ match pca_fit_transform dim arr with
                         | Some r => io_ret r
                         | None => io_raise ValueError
                         end;
        io_print [PStr "Explained variance ratio (first "; PInt dim;
                  PStr " components): "; PNums ratio] ;;ᵢ
        let PCs_round := round_pct <$> ratio in
        io_print [PStr "PCs rounded at "; PInt 2; PStr " decimals: ";
                  PNums PCs_round] ;;ᵢ
        '(var_data, var_axis) ←ᵢ select_metric (vars_data self) metric;
        (if bool_decide (dim = 2%Z) then
           render X_r dim var_data var_axis PCs_round labels templates ;;ᵢ
           io_emit (Savefig (projName +:+ "_PCA.svg")) ;;ᵢ
           io_emit (Savefig (projName +:+ "_PCA.png"))
         else io_ret tt) ;;ᵢ
        (if bool_decide (dim = 3%Z) then
           render X_r dim var_data var_axis PCs_round labels templates ;;ᵢ
           io_emit (Savefig (projName +:+ "_PCA3D.svg")) ;;ᵢ
           io_emit (Savefig (projName +:+ "_PCA3D.png"))
         else io_ret tt))
  | None =>
      m_lift (
        io_print [PStr "The coords onto which apply the PCA have to be extracted"] ;;ᵢ
        io_print [PStr "First run initPCA() then generateProtCoords()"])
  end.

End Renderer.

(** ** The specification's vocabulary

    These definitions follow the words of the specification, to be compared
    with the code above. *)

Module Spec.
Section Spec.
Context {F : Type} `{!Numerics F}.

(** An atom record: more than one field, and field 0 is the marker. *)
Definition is_atom_record (line : string) : bool :=
  (1 <? length (Py.split line))%nat
  && bool_decide (Py.split line !! 0%nat = Some "ATOM").

(** The residue number: field 5 when field 4 is alphabetic (a chain
    identifier), field 4 when it is numeric. *)
Definition residue_number (line : string) : option string :=
  match Py.split line !! 4%nat with
  | Some f4 =>
      if Py.isalpha f4 then Py.split line !! 5%nat
      else if Py.isdigit f4 then Some f4
      else None
  | None => None
  end.

(** A line the extractor accepts: any line that is not an atom record, and
    the atom records whose residue number can be read. *)
Definition recognized (line : string) : Prop :=
  is_atom_record line = true → is_Some (residue_number line).

(** An alpha-carbon record whose residue number is in the filter. *)
Definition selected (resNumbers : list string) (line : string) : bool :=
  is_atom_record line
  && match residue_number line with
     | Some r => bool_decide (r ∈ resNumbers)
     | None => false
     end
  && bool_decide (Py.split line !! 2%nat = Some "CA").

(** The coordinate columns of a line. *)
Definition coordinate (i j : nat) (line : string) : option F :=
  float (Py.strip (Py.slice i j line)).

Definition xyz (line : string) : option (list F) :=
  match coordinate 31 39 line, coordinate 39 47 line, coordinate 47 55 line with
  | Some x, Some y, Some z => Some [x; y; z]
  | _, _, _ => None
  end.

(** The feature vector of a file: the coordinates of the selected lines,
    in the order of the lines. *)
Definition feature_vector (resNumbers : list string) (lines : list string) : list F :=
  mjoin ((λ line, default [] (xyz line)) <$> filter (λ line, selected resNumbers line = true) lines).

(** The same atom written with a chain identifier and without one: the
    atom name and the residue number agree, the residue number sits in
    field 5 after an alphabetic field 4 in the first line and in a numeric
    field 4 in the second, and the three coordinate columns read the same.
    Lines that are not atom records correspond to such lines. *)
Definition same_atom (with_chain without_chain : string) : Prop :=
  (is_atom_record with_chain = false ∧ is_atom_record without_chain = false)
  ∨ (∃ serial name resname chain resnum rest serial' resname' rest',
        Py.split with_chain
          = "ATOM" :: serial :: name :: resname :: chain :: resnum :: rest
        ∧ Py.isalpha chain = true
        ∧ Py.split without_chain
          = "ATOM" :: serial' :: name :: resname' :: resnum :: rest'
        ∧ Py.isdigit resnum = true
        ∧ coordinate 31 39 with_chain = coordinate 31 39 without_chain
        ∧ coordinate 39 47 with_chain = coordinate 39 47 without_chain
        ∧ coordinate 47 55 with_chain = coordinate 47 55 without_chain).

(** [k] zeros *)
Fixpoint zeros (k : nat) : string :=
  match k with
  | O => ""
  | S k' => String "0" (zeros k')
  end.

(** [c] occurs in [s] *)
Fixpoint has_char (c : ascii) (s : string) : bool :=
  match s with
  | "" => false
  | String c' s' => bool_decide (c' = c) || has_char c s'
  end.

(** [key] is [number] with its leading zeros removed. *)
Definition leading_zeros_stripped (number key : string) : Prop :=
  (∃ k, number = zeros k +:+ key)
  ∧ match key with String c _ => c ≠ "0"%char | "" => True end.

(** One line per conformation: its name and the length of its vector. *)
Definition length_report (names : list string) (rows : list (list F))
    : list (event F) :=
  (λ nr : string * list F,
     Print [PStr nr.1; PStr tab; PInt (Z.of_nat (length nr.2))])
  <$> zip names rows.

(** Two of the vectors differ in length. *)
Definition lengths_differ (rows : list (list F)) : Prop :=
  ∃ i j x y, rows !! i = Some x ∧ rows !! j = Some y ∧ length x ≠ length y.

(** [row] is the feature vector of the conformation [name]: what
    [getPDBcoord] returns on its file with the filter of its collaborator. *)
Definition extraction (fs : gmap string (list string)) (consensusResidues : bool)
    (confs : list (string * gmap string (pyval F)))
    (name : string) (row : list F) : Prop :=
  ∃ d p cx t,
    assoc_get confs name = Some d
    ∧ d !! "path" = Some (VStr p)
    ∧ d !! "complex" = Some (VComplex cx)
    ∧ getPDBcoord fs p
        (resNumbers_of (if consensusResidues then getResiduesConsensus cx
                        else getResidues cx))
      = (t, Ok row).

(** [v] is the value of [metric] for the conformation [name]. *)
Definition metric_of (confs : list (string * gmap string (pyval F)))
    (metric : string) (name : string) (v : pyval F) : Prop :=
  ∃ d, assoc_get confs name = Some d ∧ d !! metric = Some v.

(** The values of [metric] along [names], up to the first conformation
    that lacks it. *)
Fixpoint metric_column (confs : list (string * gmap string (pyval F)))
    (metric : string) (names : list string) : list (pyval F) * result unit :=
  match names with
  | [] => ([], Ok tt)
  | name :: names' =>
      match assoc_get confs name with
      | None => ([], Raise KeyError)
      | Some d =>
          match d !! metric with
          | None => ([], Raise KeyError)
          | Some v =>
              let '(vs, r) := metric_column confs metric names' in (v :: vs, r)
          end
      end
  end.

(** The points of the metric-coloured chart: label, metric value and
    position, as far as all three are given. *)
Definition points (labels : list string) (varData : list (pyval F))
    (X_r : list (list F)) : list (string * (pyval F * list F)) :=
  zip labels (zip varData X_r).

Definition is_template (template_list : list string)
    (p : string * (pyval F * list F)) : Prop := p.1 ∈ template_list.

(** [a[:, k]] as the list of the [k]-th entries of the rows that have one *)
Definition kth_entries (k : nat) (rows : list (list F)) : list F :=
  omap (λ r : list F, r !! k) rows.

(** The template group: the positions of the points whose label is in the
    template set. *)
Definition template_positions (template_list : list string)
    (pts : list (string * (pyval F * list F))) : list (list F) :=
  (λ p, p.2.2) <$> filter (λ p, p.1 ∈ template_list) pts.

(** The colour-mapped group: the metric values and the positions of the
    points whose label is not in the template set, in the same order. *)
Definition conformation_values (template_list : list string)
    (pts : list (string * (pyval F * list F))) : list (pyval F) :=
  (λ p, p.2.1) <$> filter (λ p, p.1 ∉ template_list) pts.

Definition conformation_positions (template_list : list string)
    (pts : list (string * (pyval F * list F))) : list (list F) :=
  (λ p, p.2.2) <$> filter (λ p, p.1 ∉ template_list) pts.

(** The first [dim] columns of the rows of a group. *)
Definition group_columns (dim : nat) (rows : list (list F)) : list (list F) :=
  (λ k, kth_entries k rows) <$> seq 0 dim.

(** A scatter call draws one of the two groups: the colour-mapped group as
    circles coloured by its metric values, or the template group as black
    triangles. *)
Definition draws_group (template_list : list string)
    (pts : list (string * (pyval F * list F))) (e : event F) : Prop :=
  match e with
  | Scatter columns marker c =>
      (marker = "o"
       ∧ c = Magma01 (conformation_values template_list pts)
       ∧ ∀ k col, columns !! k = Some col →
                  col = kth_entries k (conformation_positions template_list pts))
      ∨ (marker = "v"
         ∧ c = Fixed "black"
         ∧ ∀ k col, columns !! k = Some col →
                    col = kth_entries k (template_positions template_list pts))
  | _ => True
  end.

End Spec.
End Spec.

(** ** Sample data

    A stand-in for the numeric world: a float is kept as its literal, the
    rounding is the identity and the decomposition keeps the first [dim]
    entries of each row. *)

Module Sample.

Definition literal_char (c : ascii) : bool :=
  Py.is_digit c || bool_decide (c = "."%char) || bool_decide (c = "-"%char).

#[global] Instance literal_numerics : Numerics string := {|
  float s := if Py.nonempty s && Py.all_chars literal_char s then Some s else None;
  round_pct x := x;
  pca_fit_transform dim arr :=
    Some (take (Z.to_nat dim) <$> arr, replicate (Z.to_nat dim) "0.5")
|}.

Definition ca1_chain : string :=
  "ATOM      2  CA  ALA A   1      11.104  13.207   2.100  1.00 20.00           C".
Definition ca1_nochain : string :=
  "ATOM      2  CA  ALA     1      11.104  13.207   2.100  1.00 20.00           C".
Definition n1_chain : string :=
  "ATOM      1  N   ALA A   1      10.000  12.000   1.500  1.00 20.00           N".
Definition n1_nochain : string :=
  "ATOM      1  N   ALA     1      10.000  12.000   1.500  1.00 20.00           N".
Definition ca2_chain : string :=
  "ATOM      7  CA  GLY A   2      14.500  15.250   3.750  1.00 20.00           C".
Definition ca2_nochain : string :=
  "ATOM      7  CA  GLY     2      14.500  15.250   3.750  1.00 20.00           C".
Definition remark : string := "REMARK generated".
Definition short_atom : string := "ATOM 1 CA ALA".

Definition fs : gmap string (list string) :=
  {[ "a.pdb" := [remark; n1_chain; ca1_chain; ca2_chain; "END"];
     "a_nochain.pdb" := [remark; n1_nochain; ca1_nochain; ca2_nochain; "END"];
     "b.pdb" := [remark; n1_chain; ca1_chain; "END"];
     "c.pdb" := [remark; n1_chain; "END"];
     "short.pdb" := [short_atom] ]}.

Definition pocket : Complex :=
  {| getResiduesConsensus := ["001_A"];
     getResidues := ["001_A"; "002_A"] |}.

Definition conf (path : string) (tanimoto : string) : gmap string (pyval string) :=
  {[ "path" := VStr path; "complex" := VComplex pocket;
     "tanimoto" := VNum tanimoto ]}.

(** Two conformations, inserted in an order that is not the sorted one. *)
Definition confs : list (string * gmap string (pyval string)) :=
  [("pose_b", conf "b.pdb" "0.3"); ("pose_a", conf "a.pdb" "0.7")].


(** A batch in which no atom matches. *)
Definition confs_empty : list (string * gmap string (pyval string)) :=
  [("pose_c", conf "c.pdb" "0.1"); ("pose_d", conf "c.pdb" "0.2")].

(** The vectors of [confs] over all residues: six numbers and three. *)
Definition rows_all_residues : list (list string) :=
  [["11.104"; "13.207"; "2.100"; "14.500"; "15.250"; "3.750"];
   ["11.104"; "13.207"; "2.100"]].

(** Lines and files with defects. *)
Definition fused_chain : string :=
  "ATOM   9999  CA  ALA A1000      11.104  13.207   2.100  1.00 20.00           C".
Definition truncated_ca : string := "ATOM 2 CA ALA A 1".
Definition hetero_ca : string :=
  "HETATM 900 CA    CA A   1      11.104  13.207   2.100  1.00 20.00          CA".

Definition fs_defects : gmap string (list string) :=
  {[ "fused.pdb" := [remark; ca1_chain; fused_chain; ca2_chain];
     "truncated.pdb" := [remark; ca1_chain; truncated_ca; ca2_chain];
     "mixed.pdb" := [remark; hetero_ca; ca1_chain; "TER"; ca2_chain; "END"];
     "atoms.pdb" := [ca1_chain; ca2_chain] ]}.

(** A batch one of whose files does not exist, and a batch in which the
    second conformation has no metric. *)
Definition confs_missing : list (string * gmap string (pyval string)) :=
  [("pose_a", conf "a.pdb" "0.7"); ("pose_x", conf "x.pdb" "0.1")].

Definition confs_partial : list (string * gmap string (pyval string)) :=
  [("pose_c", conf "b.pdb" "0.2");
   ("pose_b", {[ "path" := VStr "b.pdb"; "complex" := VComplex pocket ]});
   ("pose_a", conf "a.pdb" "0.7")].

Definition extracted : Self string :=
  (makePCAcoords fs true (init confs)).1.

Definition with_metric : Self string :=
  (makePCAmetric "tanimoto" extracted).1.

End Sample.

(** ** Equations of the effects *)

Section Effects_facts.
Context {F : Type}.

Lemma io_bind_ret_l {A B} (a : A) (k : A → IO F B) :
  io_bind (io_ret a) k = k a.
Proof. unfold io_bind, io_ret. by destruct (k a). Qed.

Lemma io_bind_raise_l {A B} (e : exn) (k : A → IO F B) :
  io_bind (io_raise e) k = io_raise e.
Proof. done. Qed.

Lemma io_bind_ok {A B} (t : list (event F)) (a : A) (k : A → IO F B) :
  io_bind (t, Ok a) k = (t ++ (k a).1, (k a).2).
Proof. unfold io_bind. by destruct (k a). Qed.

Lemma io_bind_emit {B} (e : event F) (k : unit → IO F B) :
  io_bind ([e], Ok tt) k = (e :: (k tt).1, (k tt).2).
Proof. by rewrite io_bind_ok. Qed.

Lemma io_fold_ext {A B} (body body' : B → A → IO F B) (acc : B) (xs : list A) :
  (∀ b a, a ∈ xs → body b a = body' b a) →
  io_fold body acc xs = io_fold body' acc xs.
Proof.
  revert acc. induction xs as [|x xs IH]; intros acc Hext; [done|].
  simpl. rewrite Hext by left.
  destruct (body' acc x) as [t [b|e]]; [|done].
  unfold io_bind. rewrite IH; [done|]. intros b' a Ha. apply Hext. by right.
Qed.

Lemma io_fold_pure {A B} (g : B → A → B) (body : B → A → IO F B)
    (acc : B) (xs : list A) :
  (∀ b a, a ∈ xs → body b a = io_ret (g b a)) →
  io_fold body acc xs = io_ret (foldl g acc xs).
Proof.
  revert acc. induction xs as [|x xs IH]; intros acc Hpure; [done|].
  simpl. rewrite Hpure by left. rewrite io_bind_ret_l.
  apply IH. intros b a Ha. apply Hpure. by right.
Qed.

Lemma io_bind_ext {A B} (m : IO F A) (f g : A → IO F B) :
  (∀ a, f a = g a) → io_bind m f = io_bind m g.
Proof. intros Hfg. destruct m as [t [a|e]]; [|done]. unfold io_bind. by rewrite Hfg. Qed.

Lemma io_bind_assoc {A B C} (m : IO F A) (f : A → IO F B) (g : B → IO F C) :
  io_bind (io_bind m f) g = io_bind m (λ a, io_bind (f a) g).
Proof.
  destruct m as [t [a|e]]; [|done]. unfold io_bind.
  destruct (f a) as [t' [b|e']]; [|done].
  destruct (g b) as [t'' r]. by rewrite app_assoc.
Qed.

Lemma io_fold_app {A B} (body : B → A → IO F B) (acc : B) (xs ys : list A) :
  io_fold body acc (xs ++ ys)
  = io_bind (io_fold body acc xs) (λ acc', io_fold body acc' ys).
Proof.
  revert acc. induction xs as [|x xs IH]; intros acc.
  - change (io_fold body acc ys = io_bind (io_ret acc) (λ acc', io_fold body acc' ys)).
    by rewrite io_bind_ret_l.
  - simpl. rewrite io_bind_assoc. apply io_bind_ext. intros b. apply IH.
Qed.

Lemma m_bind_get {S A} (k : S → M S F A) (s : S) :
  m_bind m_get k s = k s s.
Proof. unfold m_bind, m_get, io_ret. by destruct (k s s) as [s2 [t r]]. Qed.

Lemma m_bind_put {S A} (s' : S) (k : unit → M S F A) (s : S) :
  m_bind (m_put s') k s = k tt s'.
Proof. unfold m_bind, m_put, io_ret. by destruct (k tt s') as [s2 [t r]]. Qed.

Lemma m_bind_ret {S A B} (a : A) (k : A → M S F B) (s : S) :
  m_bind (m_ret a) k s = k a s.
Proof. unfold m_bind, m_ret, io_ret. by destruct (k a s) as [s2 [t r]]. Qed.

Lemma m_bind_lift_ret {S A B} (a : A) (k : A → M S F B) (s : S) :
  m_bind (m_lift (io_ret a)) k s = k a s.
Proof. unfold m_bind, m_lift, io_ret. by destruct (k a s) as [s2 [t r]]. Qed.

Lemma m_bind_lift_raise {S A B} (e : exn) (k : A → M S F B) (s : S) :
  m_bind (m_lift (io_raise e)) k s = (s, ([], Raise e)).
Proof. done. Qed.

Lemma m_bind_lift_emit {S B} (ev : event F) (k : unit → M S F B) (s : S) :
  m_bind (m_lift ([ev], Ok tt)) k s
  = ((k tt s).1, (ev :: (k tt s).2.1, (k tt s).2.2)).
Proof. unfold m_bind, m_lift. by destruct (k tt s) as [s2 [t r]]. Qed.

Lemma m_bind_run {S A B} (m : M S F A) (k : A → M S F B) (s s1 : S) t a :
  m s = (s1, (t, Ok a)) →
  m_bind m k s = ((k a s1).1, (t ++ (k a s1).2.1, (k a s1).2.2)).
Proof. intros Hm. unfold m_bind. rewrite Hm. by destruct (k a s1) as [s2 [t' r]]. Qed.

Lemma m_bind_fail {S A B} (m : M S F A) (k : A → M S F B) (s s1 : S) t e :
  m s = (s1, (t, Raise e)) →
  m_bind m k s = (s1, (t, Raise e)).
Proof. intros Hm. unfold m_bind. by rewrite Hm. Qed.

End Effects_facts.

(** ** The extractor, line by line *)

Section Extractor_facts.
Context {F : Type} `{!Numerics F}.

Ltac split_fields line :=
  unfold getPDBcoord_line, Spec.selected, Spec.recognized,
    Spec.is_atom_record, Spec.residue_number;
  destruct (Py.split line) as [|f0 [|f1 [|f2 [|f3 [|f4 [|f5 rest]]]]]];
  simpl.

Ltac io_step :=
  repeat first
    [ rewrite io_bind_ret_l
    | rewrite io_bind_raise_l
    | progress (unfold io_index; simpl)
    | progress simplify_eq/=
    | case_bool_decide
    | done ].

Lemma getPDBcoord_line_other (resNumbers : list string) (acc : list F) line :
  Spec.is_atom_record line = false →
  getPDBcoord_line resNumbers acc line = io_ret acc.
Proof.
  split_fields line; intros Hrec; io_step.
Qed.

Lemma getPDBcoord_line_unselected (resNumbers : list string) (acc : list F) line :
  Spec.recognized line →
  Spec.selected resNumbers line = false →
  getPDBcoord_line resNumbers acc line = io_ret acc.
Proof.
  split_fields line; intros Hrec Hsel; io_step;
    try (destruct Hrec as [r Hr]; [done|]; io_step);
    destruct (Py.isalpha f4), (Py.isdigit f4); io_step.
Qed.

Lemma getPDBcoord_line_selected (resNumbers : list string) (acc : list F) line :
  Spec.selected resNumbers line = true →
  getPDBcoord_line resNumbers acc line
  = match Spec.xyz line with
    | Some v => io_ret (acc ++ v)
    | None => io_raise ValueError
    end.
Proof.
  split_fields line; intros Hsel; io_step;
    destruct (Py.isalpha f4), (Py.isdigit f4); io_step;
    unfold Spec.xyz, float_field, Spec.coordinate;
    destruct (float (Py.strip (Py.slice 31 39 line))); io_step;
    destruct (float (Py.strip (Py.slice 39 47 line))); io_step;
    destruct (float (Py.strip (Py.slice 47 55 line))); io_step;
    by rewrite <- !app_assoc.
Qed.

(** A file of recognized lines whose selected lines carry three numbers:
    the loop returns the feature vector of the specification. *)
Lemma getPDBcoord_lines (resNumbers : list string) (lines : list string) (acc : list F) :
  Forall Spec.recognized lines →
  Forall (λ line, Spec.selected resNumbers line = true → is_Some (Spec.xyz line)) lines →
  io_fold (getPDBcoord_line resNumbers) acc lines
  = io_ret (acc ++ Spec.feature_vector resNumbers lines).
Proof.
  intros Hrec Hxyz. revert acc.
  induction lines as [|line lines IH]; intros acc.
  { unfold Spec.feature_vector. simpl. by rewrite app_nil_r. }
  apply Forall_cons in Hrec as [Hline Hrec].
  apply Forall_cons in Hxyz as [Hsel Hxyz].
  simpl. unfold Spec.feature_vector. rewrite filter_cons.
  destruct (Spec.selected resNumbers line) eqn:Es.
  - rewrite getPDBcoord_line_selected by done.
    destruct (Hsel eq_refl) as [v Hv]. rewrite Hv, io_bind_ret_l.
    rewrite IH by done. rewrite decide_True by done.
    simpl. rewrite Hv. simpl. by rewrite app_assoc.
  - rewrite getPDBcoord_line_unselected by done.
    rewrite io_bind_ret_l, IH by done.
    by rewrite decide_False by done.
Qed.

End Extractor_facts.

(** ** The residue filter *)

Lemma split_underscore_0_prefix (number suffix : string) :
  Spec.has_char "_" number = false →
  Py.split_underscore_0 (number +:+ "_" +:+ suffix) = number.
Proof.
  induction number as [|c number IH]; intros Hno; [done|].
  simpl in Hno. apply orb_false_iff in Hno as [Hc Hno].
  change (String c number +:+ "_" +:+ suffix)
    with (String c (number +:+ "_" +:+ suffix)).
  simpl. rewrite Hc. by rewrite IH.
Qed.

Lemma lstrip0_leading_zeros (number : string) :
  Spec.leading_zeros_stripped number (Py.lstrip0 number).
Proof.
  unfold Py.lstrip0. induction number as [|c number [[k Hk] Hkey]].
  { split; [by exists 0%nat|done]. }
  simpl. case_bool_decide as Hc.
  - subst c. split; [|done]. exists (S k). simpl.
    change (String "0" (Spec.zeros k) +:+ ?s) with (String "0" (Spec.zeros k +:+ s)).
    by rewrite <- Hk.
  - split; [by exists 0%nat|done].
Qed.

Lemma resNumbers_of_keys (resList : list string) :
  Forall2 (λ id key,
             ∀ number suffix,
               id = number +:+ "_" +:+ suffix →
               Spec.has_char "_" number = false →
               Spec.leading_zeros_stripped number key)
          resList (resNumbers_of resList).
Proof.
  unfold resNumbers_of. apply Forall2_fmap_r, Forall_Forall2_diag, Forall_forall.
  intros id _ number suffix -> Hno.
  rewrite split_underscore_0_prefix by done. apply lstrip0_leading_zeros.
Qed.

(** ** Properties of the extractor *)

Section Extractor_claims.
Context {F : Type} `{!Numerics F}.

(** On an atom record with five fields or more whose field 4 is alphabetic
    or numeric the residue number is read as the specification says, and
    when field 4 is neither the diagnostic is printed and the run ends. *)
Lemma getPDBcoord_line_unrecognized (resNumbers : list string) (acc : list F)
    (line f4 : string) :
  Spec.is_atom_record line = true →
  Py.split line !! 4%nat = Some f4 →
  Py.isalpha f4 = false → Py.isdigit f4 = false →
  getPDBcoord_line resNumbers acc line
  = ([Print [PStr unrecognized_msg]], Raise SystemExit).
Proof.
  unfold getPDBcoord_line, Spec.is_atom_record.
  destruct (Py.split line) as [|f0 [|f1 [|f2 [|f3 [|f4' [|f5 rest]]]]]];
    simpl; intros Hrec H4 Ha Hd; simplify_eq/=;
    case_bool_decide; simplify_eq/=;
    unfold io_index; simpl; rewrite !io_bind_ret_l, Ha, Hd; done.
Qed.

(** C3 (the code departs from the claim): an atom record with fewer than
    five fields, or with an alphabetic field 4 and no field 5, is not
    answered with the diagnostic and an exit: indexing the fields raises
    IndexError and nothing is printed. *)
Theorem getPDBcoord_line_short_record (resNumbers : list string) (acc : list F)
    (line : string) :
  Spec.is_atom_record line = true →
  ((length (Py.split line) < 5)%nat
   ∨ (length (Py.split line) = 5%nat
      ∧ ∃ f4, Py.split line !! 4%nat = Some f4 ∧ Py.isalpha f4 = true)) →
  getPDBcoord_line resNumbers acc line = ([], Raise IndexError).
Proof.
  unfold getPDBcoord_line, Spec.is_atom_record.
  destruct (Py.split line) as [|f0 [|f1 [|f2 [|f3 [|f4' [|f5 rest]]]]]];
    simpl; intros Hrec [Hlen|[Hlen (f4 & H4 & Ha)]];
    try lia; simplify_eq/=;
    case_bool_decide; simplify_eq/=;
    unfold io_index; simpl; rewrite ?io_bind_ret_l, ?Ha; done.
Qed.

(** C4: with a filter built from the identifiers of the collaborator (the
    text before the underscore, leading zeros removed), on a file of
    recognized lines whose selected lines hold three numbers in columns
    31-39, 39-47 and 47-55, [getPDBcoord] returns the x, y, z of the
    alpha-carbon records whose residue number is in the filter, in the
    order of the lines; each such line appends its x, y, z in that order. *)
Theorem getPDBcoord_feature_vector (fs : gmap string (list string))
    (pdbPath : string) (lines : list string) (resList : list string) :
  fs !! pdbPath = Some lines →
  Forall Spec.recognized lines →
  Forall (λ line, Spec.selected (resNumbers_of resList) line = true →
                  is_Some (Spec.xyz line)) lines →
  getPDBcoord fs pdbPath (resNumbers_of resList)
  = ([], Ok (Spec.feature_vector (resNumbers_of resList) lines))
  ∧ (∀ acc line x y z,
       Spec.selected (resNumbers_of resList) line = true →
       Spec.coordinate 31 39 line = Some x →
       Spec.coordinate 39 47 line = Some y →
       Spec.coordinate 47 55 line = Some z →
       getPDBcoord_line (resNumbers_of resList) acc line
       = ([], Ok (acc ++ [x; y; z])))
  ∧ Forall2 (λ id key,
               ∀ number suffix,
                 id = number +:+ "_" +:+ suffix →
                 Spec.has_char "_" number = false →
                 Spec.leading_zeros_stripped number key)
            resList (resNumbers_of resList).
Proof.
  intros Hfile Hrec Hxyz. split; [|split].
  - unfold getPDBcoord. rewrite Hfile.
    by rewrite getPDBcoord_lines.
  - intros acc line x y z Hsel Hx Hy Hz.
    rewrite getPDBcoord_line_selected by done.
    unfold Spec.xyz. by rewrite Hx, Hy, Hz.
  - apply resNumbers_of_keys.
Qed.

Lemma isdigit_not_isalpha (s : string) :
  Py.isdigit s = true → Py.isalpha s = false.
Proof.
  destruct s as [|c s]; [done|].
  unfold Py.isdigit, Py.isalpha. simpl.
  intros [Hc _]%andb_true_iff. apply andb_false_iff. left.
  unfold Py.is_digit, Py.is_upper, Py.is_lower in *.
  destruct (nat_of_ascii c <=? 57)%nat eqn:E1, (65 <=? nat_of_ascii c)%nat eqn:E2,
    (97 <=? nat_of_ascii c)%nat eqn:E3; simpl;
    rewrite ?andb_false_r in Hc; try done;
    apply Nat.leb_le in E1; (apply Nat.leb_le in E2 || apply Nat.leb_le in E3); lia.
Qed.

Lemma getPDBcoord_line_same_atom (resNumbers : list string) (acc : list F)
    (with_chain without_chain : string) :
  Spec.same_atom with_chain without_chain →
  getPDBcoord_line resNumbers acc with_chain
  = getPDBcoord_line resNumbers acc without_chain.
Proof.
  intros [[H1 H2]|Hsame].
  { by rewrite !getPDBcoord_line_other. }
  destruct Hsame as
    (serial & name & resname & chain & resnum & rest & serial' & resname'
     & rest' & E1 & Ha & E2 & Hd & Hx & Hy & Hz).
  unfold getPDBcoord_line, float_field. rewrite E1, E2. simpl.
  unfold Spec.coordinate in Hx, Hy, Hz. rewrite Hx, Hy, Hz.
  unfold io_index; simpl. rewrite !io_bind_ret_l. simpl.
  rewrite Ha, (isdigit_not_isalpha _ Hd), Hd. by rewrite !io_bind_ret_l.
Qed.

(** C5: two files that hold the same atoms line by line, the first with a
    chain identifier (alphabetic field 4, residue number in field 5), the
    second without (numeric field 4), with the same coordinate columns,
    give the same result under one residue filter. *)
Theorem getPDBcoord_chain_independent (fs : gmap string (list string))
    (file_with_chain file_without_chain : string)
    (lines lines' : list string) (resNumbers : list string) :
  fs !! file_with_chain = Some lines →
  fs !! file_without_chain = Some lines' →
  Forall2 Spec.same_atom lines lines' →
  getPDBcoord (F:=F) fs file_with_chain resNumbers
  = getPDBcoord fs file_without_chain resNumbers.
Proof.
  intros H1 H2 Hsame. unfold getPDBcoord. rewrite H1, H2. clear H1 H2.
  generalize (@nil F) as acc.
  induction Hsame as [|l l' ls ls' Hl _ IH]; intros acc; [done|].
  simpl. rewrite (getPDBcoord_line_same_atom _ _ _ _ Hl).
  apply io_bind_ext. intros acc'. apply IH.
Qed.

End Extractor_claims.

(** *** The extractor on the sample files *)

Ltac evaluated := vm_compute; reflexivity.

Ltac sample_recognized :=
  repeat first
    [ apply Forall_nil_2
    | apply Forall_cons_2;
      [ intros Hline;
        first [ vm_compute in Hline; discriminate Hline | vm_compute; eauto ] | ] ].

Ltac sample_same_atom :=
  first
    [ left; split; evaluated
    | right; do 9 eexists;
      split; [evaluated|]; split; [evaluated|]; split; [evaluated|];
      repeat split; evaluated ].

Lemma getPDBcoord_line_short_record_sample :
  getPDBcoord_line (F:=string) ["1"] [] Sample.short_atom = ([], Raise IndexError).
Proof.
  apply getPDBcoord_line_short_record; [evaluated|].
  left. vm_compute. lia.
Defined.

Lemma getPDBcoord_feature_vector_sample :
  getPDBcoord Sample.fs "a.pdb" (resNumbers_of ["001_A"; "002_A"])
  = ([], Ok (Spec.feature_vector (resNumbers_of ["001_A"; "002_A"])
               [Sample.remark; Sample.n1_chain; Sample.ca1_chain;
                Sample.ca2_chain; "END"])).
Proof.
  refine (proj1 (getPDBcoord_feature_vector Sample.fs "a.pdb"
                   [Sample.remark; Sample.n1_chain; Sample.ca1_chain;
                    Sample.ca2_chain; "END"] ["001_A"; "002_A"] _ _ _)).
  - evaluated.
  - sample_recognized.
  - sample_recognized.
Defined.

Lemma getPDBcoord_chain_independent_sample :
  getPDBcoord (F:=string) Sample.fs "a.pdb" ["1"; "2"]
  = getPDBcoord Sample.fs "a_nochain.pdb" ["1"; "2"].
Proof.
  apply (getPDBcoord_chain_independent Sample.fs "a.pdb" "a_nochain.pdb"
           [Sample.remark; Sample.n1_chain; Sample.ca1_chain;
            Sample.ca2_chain; "END"]
           [Sample.remark; Sample.n1_nochain; Sample.ca1_nochain;
            Sample.ca2_nochain; "END"]).
  - evaluated.
  - evaluated.
  - repeat first [ apply Forall2_nil_2 | apply Forall2_cons_2; [sample_same_atom|] ].
Defined.

(** The values behind the sample runs. *)
Example sample_feature_vector :
  Spec.feature_vector (resNumbers_of ["001_A"; "002_A"])
    [Sample.remark; Sample.n1_chain; Sample.ca1_chain; Sample.ca2_chain; "END"]
  = ["11.104"; "13.207"; "2.100"; "14.500"; "15.250"; "3.750"].
Proof. evaluated. Qed.

(** ** The feature matrix builder *)

Section Builder_facts.
Context {F : Type} `{!Numerics F}.

Lemma m_for_emit {S A} (g : A → event F) (body : A → M S F unit) (xs : list A) (s : S) :
  (∀ x s', body x s' = (s', ([g x], Ok tt))) →
  m_for xs body s = (s, (g <$> xs, Ok tt)).
Proof.
  intros Hbody. induction xs as [|x xs IH]; [done|].
  simpl. unfold m_bind. rewrite Hbody, IH. done.
Qed.

Lemma same_lengths_false (rows : list (list F)) :
  Spec.lengths_differ rows → same_lengths rows = false.
Proof.
  intros (i & j & x & y & Hi & Hj & Hxy).
  apply not_true_is_false. intros Hall.
  unfold same_lengths in Hall. rewrite forallb_forall in Hall.
  assert (Hlen : ∀ r, r ∈ rows → length r = length (default [] (head rows))).
  { intros r Hr. apply list_elem_of_In, Hall in Hr. by apply bool_decide_eq_true in Hr. }
  apply Hxy. rewrite (Hlen x), (Hlen y); [done|..]; by eapply list_elem_of_lookup_2.
Qed.

Lemma same_lengths_all_empty (rows : list (list F)) :
  Forall (λ r, r = []) rows → same_lengths rows = true ∧ all_empty rows = true.
Proof.
  intros Hempty. unfold same_lengths, all_empty. rewrite !forallb_forall.
  assert (Hhead : default [] (head rows) = []).
  { destruct Hempty as [|r rs Hr _]; [done|]. by simpl. }
  rewrite Hhead.
  split; intros r Hr%list_elem_of_In; apply bool_decide_eq_true;
    by rewrite (proj1 (Forall_forall _ _) Hempty r Hr).
Qed.

(** [makePCAcoords] in one equation: the loop over the sorted names, the
    assignment of the attribute, then the two checks. *)
Lemma makePCAcoords_run (fs : gmap string (list string)) (consensusResidues : bool)
    (self : Self F) :
  makePCAcoords fs consensusResidues self
  = match io_fold (makePCAcoords_conf fs consensusResidues (conformations self))
                  [] (sorted (conformations self).*1) with
    | (t, Raise e) => (self, (t, Raise e))
    | (t, Ok rows) =>
        (set_pcaCoordsArray rows self,
         if negb (same_lengths rows)
         then (t ++ [Print [PStr mismatch_msg]]
                 ++ Spec.length_report (sorted (conformations self).*1) rows
                 ++ [Print [PStr "Exiting."]],
               Raise SystemExit)
         else if all_empty rows
              then (t ++ [Print [PStr empty_msg]], Raise SystemExit)
              else (t, Ok tt))
    end.
Proof.
  unfold makePCAcoords, m_bind at 1 2, m_get, m_lift. simpl.
  destruct (io_fold _ _ _) as [t [rows|e]]; [|done].
  unfold m_bind at 1, m_put, np_array. simpl. unfold m_bind at 1.
  destruct (same_lengths rows); simpl.
  - destruct (all_empty rows); simpl; by rewrite ?app_nil_r.
  - unfold m_bind at 1. simpl. unfold m_bind at 1.
    erewrite (m_for_emit
      (λ nr : string * list F,
         Print [PStr nr.1; PStr tab; PInt (Z.of_nat (length nr.2))])).
    2: { by intros [n r] s'. }
    unfold m_bind. simpl. by unfold Spec.length_report.
Qed.

End Builder_facts.

(** ** The order of processing *)

Section Order_facts.
Context {F : Type} `{!Numerics F}.


Lemma assoc_get_elem {V} (d : list (string * V)) (k : string) (v : V) :
  NoDup d.*1 → (k, v) ∈ d → assoc_get d k = Some v.
Proof.
  induction d as [|[k' v'] d IH]; intros Hnd Hin.
  { by apply elem_of_nil in Hin. }
  apply NoDup_cons in Hnd as [Hk' Hnd]. simpl.
  apply elem_of_cons in Hin as [Heq|Hin].
  - simplify_eq. by rewrite bool_decide_eq_true_2.
  - rewrite bool_decide_eq_false_2; [by apply IH|].
    intros ->. apply Hk'. apply list_elem_of_fmap. by exists (k, v).
Qed.

Lemma assoc_get_Some {V} (d : list (string * V)) (k : string) (v : V) :
  assoc_get d k = Some v → (k, v) ∈ d.
Proof.
  induction d as [|[k' v'] d IH]; [done|]. simpl.
  case_bool_decide; intros; simplify_eq; [left|right; auto].
Qed.



Lemma makePCAcoords_conf_ok (fs : gmap string (list string)) (c : bool)
    (confs : list (string * gmap string (pyval F)))
    (acc : list (list F)) (name : string) t rows :
  makePCAcoords_conf fs c confs acc name = (t, Ok rows) →
  ∃ row, rows = acc ++ [row] ∧ Spec.extraction fs c confs name row.
Proof.
  unfold makePCAcoords_conf, Spec.extraction, io_getitem.
  destruct (assoc_get confs name) as [d|]; [|done]. rewrite io_bind_ret_l.
  destruct (d !! "path") as [pv|] eqn:Ep; [|done]. rewrite io_bind_ret_l.
  destruct (d !! "complex") as [cv|] eqn:Ec; [|done]. rewrite io_bind_ret_l.
  destruct cv as [| |cx]; [by rewrite io_bind_raise_l..|]. rewrite io_bind_ret_l.
  destruct pv as [p| |]; [|by rewrite io_bind_raise_l..]. rewrite io_bind_ret_l.
  destruct (getPDBcoord fs p _) as [t' [row|e]] eqn:E; [|done].
  rewrite io_bind_ok. simpl. rewrite app_nil_r. intros [= <- <-].
  exists row. split; [done|]. by exists d, p, cx, t'.
Qed.

Lemma makePCAcoords_loop_ok (fs : gmap string (list string)) (c : bool)
    (confs : list (string * gmap string (pyval F)))
    (names : list string) (acc : list (list F)) t rows :
  io_fold (makePCAcoords_conf fs c confs) acc names = (t, Ok rows) →
  ∃ new, rows = acc ++ new ∧ Forall2 (Spec.extraction fs c confs) names new.
Proof.
  revert acc t rows. induction names as [|name names IH]; intros acc t rows.
  { intros [= <- <-]. exists []. by rewrite app_nil_r. }
  simpl. destruct (makePCAcoords_conf fs c confs acc name) as [t1 [rows1|e]] eqn:E1; [|done].
  apply makePCAcoords_conf_ok in E1 as (row & -> & Hrow).
  rewrite io_bind_ok.
  destruct (io_fold _ (acc ++ [row]) names) as [t2 [rows2|e]] eqn:E2; [|done].
  simpl. intros [= <- <-].
  apply IH in E2 as (new & -> & Hnew).
  exists (row :: new). split; [by rewrite <- app_assoc|by constructor].
Qed.

Lemma makePCAmetric_conf_run (metric : string) (name : string)
    (vals : list (pyval F)) (self : Self F) :
  vars_data self = Some {[metric := vals]} →
  makePCAmetric_conf name self
  = match assoc_get (conformations self) name with
    | None => (self, ([], Raise KeyError))
    | Some d =>
        match d !! metric with
        | None => (self, ([], Raise KeyError))
        | Some v => (set_vars_data {[metric := vals ++ [v]]} self, ([], Ok tt))
        end
    end.
Proof.
  intros Hv. unfold makePCAmetric_conf. rewrite m_bind_get.
  destruct (assoc_get (conformations self) name) as [d|]; [|done].
  simpl. rewrite m_bind_lift_ret, Hv, m_bind_lift_ret.
  rewrite map_to_list_singleton.
  change (sorted [(metric, vals)].*1) with [metric].
  simpl. unfold makePCAmetric_var.
  destruct (d !! metric) as [v|]; simpl; [|done].
  erewrite m_bind_run; [|rewrite m_bind_lift_ret, m_bind_get, Hv, m_bind_lift_ret;
                          rewrite lookup_singleton_eq; simpl;
                          rewrite m_bind_lift_ret; reflexivity].
  simpl. by rewrite insert_singleton_eq.
Qed.

(** [makePCAmetric] in one equation. *)
Lemma makePCAmetric_loop (metric : string) (names : list string)
    (vals : list (pyval F)) (self : Self F) :
  vars_data self = Some {[metric := vals]} →
  m_for names makePCAmetric_conf self
  = (set_vars_data
       {[metric := vals ++ (Spec.metric_column (conformations self) metric names).1]}
       self,
     ([], (Spec.metric_column (conformations self) metric names).2)).
Proof.
  revert vals self. induction names as [|name names IH]; intros vals self Hv.
  { simpl. rewrite app_nil_r. unfold m_ret, io_ret.
    destruct self; simpl in *. by rewrite Hv. }
  assert (Hself : set_vars_data {[metric := vals]} self = self).
  { destruct self; simpl in *. by rewrite Hv. }
  simpl.
  pose proof (makePCAmetric_conf_run metric name vals self Hv) as Hbody.
  destruct (assoc_get (conformations self) name) as [d|].
  2: { erewrite m_bind_fail by exact Hbody. by rewrite app_nil_r, Hself. }
  destruct (d !! metric) as [v|].
  2: { erewrite m_bind_fail by exact Hbody. by rewrite app_nil_r, Hself. }
  erewrite m_bind_run by exact Hbody.
  rewrite (IH (vals ++ [v])) by done. simpl.
  destruct (Spec.metric_column (conformations self) metric names) as [vs r].
  simpl. by rewrite <- app_assoc.
Qed.

Lemma makePCAmetric_run (metric : string) (self : Self F) :
  makePCAmetric metric self
  = (set_vars_data
       {[metric := (Spec.metric_column (conformations self) metric
                      (sorted (conformations self).*1)).1]}
       self,
     ([], (Spec.metric_column (conformations self) metric
             (sorted (conformations self).*1)).2)).
Proof.
  unfold makePCAmetric. rewrite m_bind_get, m_bind_put, m_bind_get.
  rewrite insert_empty.
  by rewrite (makePCAmetric_loop metric _ []).
Qed.

End Order_facts.

(** ** Properties of the builder and of the metric collector *)

Section Builder_claims.
Context {F : Type} `{!Numerics F}.

(** C2 (amended): when the vectors extracted for the batch do not all
    have one length, [makePCAcoords] prints the heading, then one line per
    conformation with its name and the length of its vector, then
    "Exiting.", and ends the run with [sys.exit]; it does not return.  The
    matrix of these vectors has been assigned to [pcaCoordsArray] before the
    check, and the instance keeps it. *)
Theorem makePCAcoords_length_mismatch (fs : gmap string (list string))
    (consensusResidues : bool) (self : Self F)
    (t : list (event F)) (rows : list (list F)) :
  io_fold (makePCAcoords_conf fs consensusResidues (conformations self))
          [] (sorted (conformations self).*1) = (t, Ok rows) →
  Spec.lengths_differ rows →
  makePCAcoords fs consensusResidues self
  = (set_pcaCoordsArray rows self,
     (t ++ [Print [PStr mismatch_msg]]
        ++ Spec.length_report (sorted (conformations self).*1) rows
        ++ [Print [PStr "Exiting."]],
      Raise SystemExit))
  ∧ length (Spec.length_report (sorted (conformations self).*1) rows)
    = length (conformations self).
Proof.
  intros Hloop Hdiff. split.
  - rewrite makePCAcoords_run, Hloop.
    by rewrite (same_lengths_false _ Hdiff).
  - apply makePCAcoords_loop_ok in Hloop as (new & -> & Hnew).
    unfold Spec.length_report. rewrite length_fmap, length_zip.
    apply Forall2_length in Hnew. simpl. rewrite <- Hnew, Nat.min_id.
    unfold sorted. by rewrite merge_sort_Permutation, length_fmap.
Qed.


(** C7: on a file of recognized lines none of which is selected, the
    extraction returns the empty vector and raises nothing; and when every
    vector of the batch is empty, [makePCAcoords] prints the message of
    the empty batch, which differs from the heading of the length check,
    and ends the run with [sys.exit]. *)
Theorem empty_vectors (fs : gmap string (list string))
    (pdbPath : string) (lines : list string) (resNumbers : list string)
    (consensusResidues : bool) (self : Self F)
    (t : list (event F)) (rows : list (list F)) :
  fs !! pdbPath = Some lines →
  Forall Spec.recognized lines →
  Forall (λ line, Spec.selected resNumbers line = false) lines →
  io_fold (makePCAcoords_conf fs consensusResidues (conformations self))
          [] (sorted (conformations self).*1) = (t, Ok rows) →
  Forall (λ row, row = []) rows →
  getPDBcoord fs pdbPath resNumbers = ([], Ok [])
  ∧ (makePCAcoords fs consensusResidues self).2
    = (t ++ [Print [PStr empty_msg]], Raise SystemExit)
  ∧ empty_msg ≠ mismatch_msg.
Proof.
  intros Hfile Hrec Hnone Hloop Hempty. split; [|split].
  - unfold getPDBcoord. rewrite Hfile.
    rewrite (io_fold_pure (λ acc _, acc)).
    + clear. by induction lines.
    + intros acc line Hline.
      apply getPDBcoord_line_unselected.
      * by apply (proj1 (Forall_forall _ _) Hrec).
      * by apply (proj1 (Forall_forall _ _) Hnone).
  - rewrite makePCAcoords_run, Hloop.
    destruct (same_lengths_all_empty _ Hempty) as [-> ->]. done.
  - done.
Qed.

End Builder_claims.

(** *** The builder and the collector on the sample batches *)

Lemma makePCAcoords_length_mismatch_sample :
  makePCAcoords Sample.fs false (init Sample.confs)
  = (set_pcaCoordsArray Sample.rows_all_residues (init Sample.confs),
     ([] ++ [Print [PStr mismatch_msg]]
         ++ Spec.length_report (sorted (conformations (init Sample.confs)).*1)
                               Sample.rows_all_residues
         ++ [Print [PStr "Exiting."]],
      Raise SystemExit))
  ∧ length (Spec.length_report (sorted (conformations (init Sample.confs)).*1)
                               Sample.rows_all_residues)
    = length (conformations (init Sample.confs)).
Proof.
  apply makePCAcoords_length_mismatch.
  - evaluated.
  - exists 0%nat, 1%nat. do 2 eexists.
    split; [reflexivity|]. split; [reflexivity|]. vm_compute. lia.
Defined.

(** C2 as first stated fails: on the sample batch over all residues the
    vectors have six numbers and three, the run ends in [sys.exit], and the
    instance, which held no matrix, holds the matrix of the two vectors. *)
Lemma makePCAcoords_length_mismatch_matrix_assigned :
  Spec.lengths_differ Sample.rows_all_residues
  ∧ pcaCoordsArray (init Sample.confs) = None
  ∧ (makePCAcoords Sample.fs false (init Sample.confs)).2.2 = Raise SystemExit
  ∧ pcaCoordsArray (makePCAcoords Sample.fs false (init Sample.confs)).1
    = Some Sample.rows_all_residues.
Proof.
  split; [|split; [|split]]; [|evaluated..].
  exists 0%nat, 1%nat. do 2 eexists.
  split; [reflexivity|]. split; [reflexivity|]. vm_compute. lia.
Qed.


Lemma empty_vectors_sample :
  getPDBcoord (F:=string) Sample.fs "c.pdb" ["1"] = ([], Ok [])
  ∧ (makePCAcoords Sample.fs true (init Sample.confs_empty)).2
    = ([] ++ [Print [PStr empty_msg]], Raise SystemExit)
  ∧ empty_msg ≠ mismatch_msg.
Proof.
  apply (empty_vectors Sample.fs "c.pdb"
           [Sample.remark; Sample.n1_chain; "END"] ["1"] true
           (init Sample.confs_empty) [] [[]; []]).
  - evaluated.
  - sample_recognized.
  - repeat first [ apply Forall_nil_2 | apply Forall_cons_2; [evaluated|] ].
  - evaluated.
  - repeat constructor.
Defined.

(** What the sample runs print and store. *)
Example sample_length_report :
  Spec.length_report (sorted (conformations (init Sample.confs)).*1)
                     Sample.rows_all_residues
  = [Print [PStr "pose_a"; PStr tab; PInt 6];
     Print [PStr "pose_b"; PStr tab; PInt 3]].
Proof. evaluated. Qed.

Example sample_aligned :
  pcaCoordsArray Sample.with_metric
  = Some [["11.104"; "13.207"; "2.100"]; ["11.104"; "13.207"; "2.100"]]
  ∧ (vars_data Sample.with_metric ≫= (.!! "tanimoto"))
    = Some [VNum "0.7"; VNum "0.3"].
Proof. split; evaluated. Qed.

(** ** Properties of [plotPCAfig] *)

Section Plot_claims.
Context {F : Type} `{!Numerics F}.

(** C10: on an instance whose [pcaCoordsArray] is [None], [plotPCAfig]
    prints the two lines of the diagnostic and returns: nothing is raised,
    no decomposition is computed, no figure is drawn or saved, and the
    instance is as it was. *)
Theorem plotPCAfig_without_coords (self : Self F) (projName metric : string)
    (labels : list string) (dim : Z) (templates : list string) :
  pcaCoordsArray self = None →
  plotPCAfig projName metric labels dim templates self
  = (self,
     ([Print [PStr "The coords onto which apply the PCA have to be extracted"];
       Print [PStr "First run initPCA() then generateProtCoords()"]],
      Ok tt)).
Proof.
  intros Hnone. unfold plotPCAfig. rewrite m_bind_get, Hnone. done.
Qed.

(** C1 (the code departs from the claim): with a metric table that lacks
    the requested metric, in two or three dimensions, the warning is
    printed and then the read of [var_data], which no branch has assigned,
    raises UnboundLocalError: no figure is drawn and no file is saved. *)
Theorem plotPCAfig_missing_metric (self : Self F) (projName metric : string)
    (labels : list string) (dim : Z) (templates : list string)
    (arr X_r : list (list F)) (ratio : list F)
    (table : gmap string (list (pyval F))) :
  pcaCoordsArray self = Some arr →
  vars_data self = Some table →
  table !! metric = None →
  pca_fit_transform dim arr = Some (X_r, ratio) →
  dim = 2%Z ∨ dim = 3%Z →
  plotPCAfig projName metric labels dim templates self
  = (self,
     ([Print [PStr "Explained variance ratio (first "; PInt dim;
              PStr " components): "; PNums ratio];
       Print [PStr "PCs rounded at "; PInt 2; PStr " decimals: ";
              PNums (round_pct <$> ratio)];
       Print [PStr missing_metric_msg]],
      Raise UnboundLocalError)).
Proof.
  intros Harr Htable Hmiss Hpca Hdim.
  unfold plotPCAfig. rewrite m_bind_get, Harr, Hpca, Htable.
  unfold m_lift, select_metric. rewrite Hmiss. f_equal.
  destruct Hdim as [-> | ->]; reflexivity.
Qed.

End Plot_claims.

Lemma plotPCAfig_without_coords_sample :
  plotPCAfig "run" "tanimoto" ["a"; "b"] 2 [] (init Sample.confs)
  = (init Sample.confs,
     ([Print [PStr "The coords onto which apply the PCA have to be extracted"];
       Print [PStr "First run initPCA() then generateProtCoords()"]],
      Ok tt)).
Proof. apply plotPCAfig_without_coords. reflexivity. Defined.

Lemma plotPCAfig_missing_metric_sample :
  (plotPCAfig "run" "jaccard" ["a"; "b"] 2 [] Sample.with_metric).2.2
  = Raise UnboundLocalError.
Proof.
  refine (f_equal (λ r, r.2.2)
    (plotPCAfig_missing_metric Sample.with_metric "run" "jaccard" ["a"; "b"] 2 []
       [["11.104"; "13.207"; "2.100"]; ["11.104"; "13.207"; "2.100"]]
       [["11.104"; "13.207"]; ["11.104"; "13.207"]] ["0.5"; "0.5"]
       {["tanimoto" := [VNum "0.7"; VNum "0.3"]]} _ _ _ _ _)).
  - evaluated.
  - evaluated.
  - evaluated.
  - evaluated.
  - by left.
Defined.

(** ** Properties of the renderer *)

Section Renderer_claims.
Context {F : Type} `{!Numerics F}.

Lemma io_bind_trace {A B} (P : event F → Prop) (m : IO F A) (k : A → IO F B) :
  Forall P m.1 →
  (∀ a, m.2 = Ok a → Forall P (k a).1) →
  Forall P (io_bind m k).1.
Proof.
  destruct m as [t [a|e]]; simpl; intros Ht Hk; [|done].
  rewrite io_bind_ok. simpl. apply Forall_app. split; [done|by apply Hk].
Qed.

Lemma io_fold_trace {A B} (P : event F → Prop) (body : B → A → IO F B)
    (acc : B) (xs : list A) :
  (∀ b a, Forall P (body b a).1) → Forall P (io_fold body acc xs).1.
Proof.
  intros Hbody. revert acc. induction xs as [|x xs IH]; intros acc; simpl.
  - constructor.
  - apply io_bind_trace; [apply Hbody|]. intros b _. apply IH.
Qed.

Lemma column_entries (k : nat) (rows : list (list F)) :
  Forall (λ _, False) (column k rows).1
  ∧ ∀ c, (column k rows).2 = Ok c → c = Spec.kth_entries k rows.
Proof.
  unfold column, Spec.kth_entries.
  destruct (mapM (λ r : list F, r !! k) rows) as [c|] eqn:E; simpl.
  - split; [constructor|]. intros c' [= <-].
    apply mapM_Some in E. induction E as [|r y rs ys Hr _ IH]; [done|].
    simpl. rewrite Hr. simpl. f_equal. exact IH.
  - split; [constructor|done].
Qed.

Lemma np_column_entries (k : nat) (rows : list (list F)) :
  Forall (λ _, False) (np_column k rows).1
  ∧ ∀ c, (np_column k rows).2 = Ok c → c = Spec.kth_entries k rows.
Proof.
  destruct rows as [|r rows]; [by split; [constructor|]|].
  apply column_entries.
Qed.

Lemma split_templates_groups (labels : list string) (varData : list (pyval F))
    (X_r : list (list F)) (template_list : list string) :
  split_templates labels varData X_r template_list
  = (Spec.template_positions template_list (Spec.points labels varData X_r),
     Spec.conformation_values template_list (Spec.points labels varData X_r),
     Spec.conformation_positions template_list (Spec.points labels varData X_r)).
Proof.
  unfold split_templates, Spec.points,
    Spec.template_positions, Spec.conformation_values, Spec.conformation_positions.
  generalize (zip labels (zip varData X_r)). intros pts.
  assert (Hgen : ∀ tp cd cp,
    foldl (λ '(templatePosition, confData, confPosition) '(l, (d, x)),
             if bool_decide (l ∈ template_list)
             then (templatePosition ++ [x], confData, confPosition)
             else (templatePosition, confData ++ [d], confPosition ++ [x]))
          (tp, cd, cp) pts
    = (tp ++ ((λ p, p.2.2) <$> filter (λ p, p.1 ∈ template_list) pts),
       cd ++ ((λ p, p.2.1) <$> filter (λ p, p.1 ∉ template_list) pts),
       cp ++ ((λ p, p.2.2) <$> filter (λ p, p.1 ∉ template_list) pts))).
  { induction pts as [|[l [d x]] pts IH]; intros tp cd cp.
    { simpl. by rewrite !app_nil_r. }
    simpl. rewrite !filter_cons. simpl. case_bool_decide as Hl.
    - rewrite IH. rewrite decide_True by done.
      rewrite decide_False by (intros Hn; by apply Hn).
      simpl. by rewrite <- app_assoc.
    - rewrite IH. rewrite decide_False by done. rewrite decide_True by done.
      simpl. by rewrite <- !app_assoc. }
  simpl. apply (Hgen [] [] []).
Qed.

Lemma annotate_2d_events (labels : list string) (xs ys : list F) :
  annotate_2d labels xs ys
  = ((λ p : string * (F * F), Annotate p.1 [p.2.1; p.2.2])
       <$> zip labels (zip xs ys), Ok tt).
Proof.
  unfold annotate_2d, io_for. generalize (zip labels (zip xs ys)). intros pts.
  induction pts as [|[l [x y]] pts IH]; [done|].
  simpl. unfold io_emit at 1. rewrite io_bind_emit, IH. done.
Qed.

(** In three dimensions a point with the empty label is not annotated. *)
Lemma annotate_3d_events (labels : list string) (xs ys zs : list F) :
  annotate_3d labels xs ys zs
  = ((λ p : string * (F * (F * F)), Annotate p.1 [p.2.1; p.2.2.1; p.2.2.2])
       <$> filter (λ p, p.1 ≠ "") (zip labels (zip xs (zip ys zs))), Ok tt).
Proof.
  unfold annotate_3d, io_for.
  generalize (zip labels (zip xs (zip ys zs))). intros pts.
  induction pts as [|[l [x [y z]]] pts IH]; [done|].
  simpl. rewrite filter_cons. simpl. case_bool_decide as Hl.
  - case_decide; [|done]. unfold io_emit at 1.
    rewrite io_bind_emit, IH. done.
  - case_decide; [done|]. by rewrite io_bind_ret_l, IH.
Qed.

End Renderer_claims.

Section Renderer_theorems.
Context {F : Type} `{!Numerics F}.

Lemma np_column_trace (P : event F → Prop) (k : nat) (rows : list (list F)) :
  Forall P (np_column k rows).1.
Proof.
  eapply Forall_impl; [apply np_column_entries|]. by intros e [].
Qed.

Lemma column_trace (P : event F → Prop) (k : nat) (rows : list (list F)) :
  Forall P (column k rows).1.
Proof.
  eapply Forall_impl; [apply column_entries|]. by intros e [].
Qed.

Lemma annotate_2d_trace (P : event F → Prop) (labels : list string) (xs ys : list F) :
  (∀ l pt, P (Annotate l pt)) → Forall P (annotate_2d labels xs ys).1.
Proof.
  intros HP. rewrite annotate_2d_events. simpl.
  apply Forall_fmap, Forall_forall. intros p _. apply HP.
Qed.

Lemma annotate_3d_trace (P : event F → Prop) (labels : list string) (xs ys zs : list F) :
  (∀ l pt, P (Annotate l pt)) → Forall P (annotate_3d labels xs ys zs).1.
Proof.
  intros HP. rewrite annotate_3d_events. simpl.
  apply Forall_fmap, Forall_forall. intros p _. apply HP.
Qed.

Lemma axis_label_trace (P : event F → Prop) (axis : string) (PCs_round : list F) (k : nat) :
  (∀ a pc, P (AxisLabel a pc)) → Forall P (axis_label axis PCs_round k).1.
Proof.
  intros HP. unfold axis_label, io_index.
  destruct (PCs_round !! k) as [pc|]; [|constructor].
  rewrite io_bind_ret_l. repeat constructor. apply HP.
Qed.

Ltac group_columns :=
  let k := fresh "k" in
  let col := fresh "col" in
  let Hk := fresh "Hk" in
  intros k col Hk;
  destruct k as [|[|[|k]]]; simplify_eq/=; by apply np_column_entries.

Ltac chart_trace :=
  repeat first
    [ apply np_column_trace
    | apply column_trace
    | apply annotate_2d_trace; done
    | apply annotate_3d_trace; done
    | apply axis_label_trace; done
    | apply io_bind_trace; [|intros ? ?]
    | apply Forall_nil_2
    | apply Forall_cons_2; [|apply Forall_nil_2] ].

Lemma column_all (k : nat) (rows : list (list F)) :
  Forall (λ r, k < length r)%nat rows →
  column k rows = io_ret (Spec.kth_entries k rows).
Proof.
  intros Hrows. unfold column, Spec.kth_entries.
  assert (E : mapM (λ r : list F, r !! k) rows
              = Some (omap (λ r : list F, r !! k) rows)).
  { induction Hrows as [|r rows Hr _ IH]; [done|].
    apply lookup_lt_is_Some_2 in Hr as [x Hx].
    simpl. rewrite Hx. simpl. rewrite IH. done. }
  by rewrite E.
Qed.

Lemma np_column_all (k : nat) (rows : list (list F)) :
  rows ≠ [] →
  Forall (λ r, k < length r)%nat rows →
  np_column k rows = io_ret (Spec.kth_entries k rows).
Proof.
  intros Hne Hrows. destruct rows as [|r rows]; [done|].
  by apply column_all.
Qed.

Lemma axis_label_all (axis : string) (PCs_round : list F) (k : nat) :
  (k < length PCs_round)%nat →
  ∃ pc, axis_label axis PCs_round k = ([AxisLabel axis pc], Ok tt).
Proof.
  intros [pc Hpc]%lookup_lt_is_Some_2. exists pc.
  unfold axis_label, io_index. by rewrite Hpc, io_bind_ret_l.
Qed.

Lemma group_rows (P : list F → Prop) (labels template_list : list string)
    (varData : list (pyval F)) (X_r : list (list F)) :
  Forall P X_r →
  Forall P (Spec.template_positions template_list (Spec.points labels varData X_r))
  ∧ Forall P (Spec.conformation_positions template_list
                (Spec.points labels varData X_r)).
Proof.
  intros HX.
  assert (Hpts : Forall (λ p : string * (pyval F * list F), P p.2.2)
                        (Spec.points labels varData X_r)).
  { apply Forall_forall. intros [l [d x]] Hin. simpl.
    apply elem_of_zip_r, elem_of_zip_r in Hin.
    by apply (proj1 (Forall_forall _ _) HX). }
  unfold Spec.template_positions, Spec.conformation_positions.
  split; apply Forall_fmap, Forall_forall; intros p [_ Hp]%list_elem_of_filter;
    by apply (proj1 (Forall_forall _ _) Hpts).
Qed.

(** C9: in the metric-coloured rendering the points are split by their
    label: those whose label is in the template set form the template
    group, the others form the colour-mapped group, each with its metric
    value; every scatter call draws the colour-mapped group with its
    metric values as colours, or the template group with the fixed black
    marker, so the metric value of a template point is never used; and in
    two or three dimensions, when both groups have a point and the
    projection has [dim] components, the chart is completed with both
    groups drawn. *)
Theorem template_precedence (X_r : list (list F)) (dim : Z)
    (varData : list (pyval F)) (varName : option string) (PCs_round : list F)
    (labels template_list : list string) :
  let pts := Spec.points labels varData X_r in
  let run := pcaSubplot_vars X_r dim varData varName PCs_round labels template_list in
  split_templates labels varData X_r template_list
  = (Spec.template_positions template_list pts,
     Spec.conformation_values template_list pts,
     Spec.conformation_positions template_list pts)
  ∧ Forall (Spec.draws_group template_list pts) run.1
  ∧ (dim = 2%Z ∨ dim = 3%Z →
     Forall (λ r, Z.to_nat dim ≤ length r)%nat X_r →
     (Z.to_nat dim ≤ length PCs_round)%nat →
     Spec.template_positions template_list pts ≠ [] →
     Spec.conformation_positions template_list pts ≠ [] →
     run.2 = Ok tt
     ∧ Scatter (Spec.group_columns (Z.to_nat dim)
                  (Spec.conformation_positions template_list pts))
               "o" (Magma01 (Spec.conformation_values template_list pts)) ∈ run.1
     ∧ Scatter (Spec.group_columns (Z.to_nat dim)
                  (Spec.template_positions template_list pts))
               "v" (Fixed "black") ∈ run.1).
Proof.
  intros pts run. split; [apply split_templates_groups|]. split.
  { subst run. unfold pcaSubplot_vars. rewrite split_templates_groups.
    unfold io_emit.
    apply io_bind_trace; [|intros ? _]; case_bool_decide; chart_trace;
      try exact I.
    - left. split; [done|]. split; [done|]. group_columns.
    - right. split; [done|]. split; [done|]. group_columns.
    - left. split; [done|]. split; [done|]. group_columns.
    - right. split; [done|]. split; [done|]. group_columns. }
  intros Hdim HX HPC Htp Hcp. subst run.
  unfold pcaSubplot_vars. rewrite split_templates_groups. fold pts.
  destruct (group_rows (λ r, Z.to_nat dim ≤ length r)%nat
              labels template_list varData X_r HX) as [HTP HCP].
  fold pts in HTP, HCP. unfold io_emit, Spec.group_columns.
  destruct Hdim as [-> | ->]; simpl in *.
  - destruct (axis_label_all "PC1" PCs_round 0) as [p0 ->]; [lia|].
    destruct (axis_label_all "PC2" PCs_round 1) as [p1 ->]; [lia|].
    rewrite !np_column_all, !column_all
      by (done || (eapply Forall_impl; [eassumption|]; simpl; lia)).
    unfold io_bind, io_ret. simpl. rewrite annotate_2d_events. simpl.
    split; [done|]. split; set_solver.
  - destruct (axis_label_all "PC1" PCs_round 0) as [p0 ->]; [lia|].
    destruct (axis_label_all "PC2" PCs_round 1) as [p1 ->]; [lia|].
    destruct (axis_label_all "PC3" PCs_round 2) as [p2 ->]; [lia|].
    rewrite !np_column_all, !column_all
      by (done || (eapply Forall_impl; [eassumption|]; simpl; lia)).
    unfold io_bind, io_ret. simpl. rewrite annotate_3d_events. simpl.
    split; [done|]. split; set_solver.
Qed.

(** C8 (the code departs from the claim): in two dimensions both
    renderings annotate every point, also a point whose label is the
    empty string; only the loops of the three-dimensional charts skip the
    empty label. *)
Theorem pcaSubplot_2d_annotates_empty_label (x y x' y' p1 p2 : F)
    (d d' : pyval F) (varName : option string) :
  Annotate "" [x; y] ∈ (pcaSubplot [[x; y]] 2 [p1; p2] [""] []).1
  ∧ (pcaSubplot [[x; y]] 2 [p1; p2] [""] []).2 = Ok tt
  ∧ Annotate "" [x; y]
    ∈ (pcaSubplot_vars [[x; y]; [x'; y']] 2 [d; d'] varName [p1; p2]
         [""; "template"] ["template"]).1
  ∧ (pcaSubplot_vars [[x; y]; [x'; y']] 2 [d; d'] varName [p1; p2]
       [""; "template"] ["template"]).2 = Ok tt.
Proof.
  assert (H1 : pcaSubplot [[x; y]] 2 [p1; p2] [""] []
               = ([Figure "PCA 2D"; Scatter [[x]; [y]] "v" (Fixed "black");
                   Annotate "" [x; y]; AxisLabel "PC1" p1; AxisLabel "PC2" p2],
                  Ok tt)) by reflexivity.
  assert (H2 : pcaSubplot_vars [[x; y]; [x'; y']] 2 [d; d'] varName [p1; p2]
                 [""; "template"] ["template"]
               = ([Figure "PCA 2D";
                   Scatter [[x]; [y]] "o" (Magma01 [d]);
                   Scatter [[x']; [y']] "v" (Fixed "black");
                   Annotate "" [x; y]; Annotate "template" [x'; y'];
                   AxisLabel "PC1" p1; AxisLabel "PC2" p2; Colorbar varName],
                  Ok tt)) by reflexivity.
  rewrite H1, H2. simpl. repeat split; set_solver.
Qed.

End Renderer_theorems.

(** *** The charts of the sample run *)

(** Two dimensions, with the metric: the point without a label is
    annotated all the same, and both files are written. *)
Example plotPCAfig_2d_sample :
  let run := (plotPCAfig "run" "tanimoto" ["pose_a"; ""] 2 ["pose_a"]
                Sample.with_metric).2 in
  In (Annotate "" ["11.104"; "13.207"]) run.1
  ∧ In (Scatter [["11.104"]; ["13.207"]] "o" (Magma01 [VNum "0.3"])) run.1
  ∧ In (Scatter [["11.104"]; ["13.207"]] "v" (Fixed "black")) run.1
  ∧ In (Savefig "run_PCA.svg") run.1
  ∧ In (Savefig "run_PCA.png") run.1
  ∧ run.2 = Ok tt.
Proof. vm_compute. tauto. Qed.

(** Three dimensions, with the metric: the point without a label is
    skipped, and both files are written. *)
Example plotPCAfig_3d_sample :
  let run := (plotPCAfig "run" "tanimoto" ["pose_a"; ""] 3 ["pose_a"]
                Sample.with_metric).2 in
  In (Annotate "pose_a" ["11.104"; "13.207"; "2.100"]) run.1
  ∧ ¬ In (Annotate "" ["11.104"; "13.207"; "2.100"]) run.1
  ∧ In (Savefig "run_PCA3D.svg") run.1
  ∧ In (Savefig "run_PCA3D.png") run.1
  ∧ run.2 = Ok tt.
Proof. vm_compute. intuition congruence. Qed.

(** Three dimensions, without a metric table: the scatter call of the plain
    chart raises, and the run ends with the figure opened and nothing
    saved. *)
Example plotPCAfig_3d_plain_sample :
  plotPCAfig "run" "tanimoto" ["pose_a"; ""] 3 [] Sample.extracted
  = (Sample.extracted,
     ([Print [PStr "Explained variance ratio (first "; PInt 3;
              PStr " components): "; PNums ["0.5"; "0.5"; "0.5"]];
       Print [PStr "PCs rounded at "; PInt 2; PStr " decimals: ";
              PNums ["0.5"; "0.5"; "0.5"]];
       Figure "PCA 3D"],
      Raise AttributeError)).
Proof. evaluated. Qed.

(** With the metric and no template among the labels the template group is
    empty and indexing its columns raises. *)
Example plotPCAfig_no_template_sample :
  (plotPCAfig "run" "tanimoto" ["pose_a"; "pose_b"] 2 [] Sample.with_metric).2.2
  = Raise IndexError.
Proof. evaluated. Qed.

Example pcaSubplot_vars_sample :
  (pcaSubplot_vars [["11.104"; "13.207"]; ["11.104"; "13.207"]] 2
     [VNum "0.7"; VNum "0.3"] (Some "Tanimoto coefficient") ["0.5"; "0.5"]
     ["pose_a"; ""] ["pose_a"]).2
  = Ok tt.
Proof. evaluated. Qed.

(** * Further properties of the extractor *)

Section Extractor_more.
Context {F : Type} `{!Numerics F}.

Lemma rev_app_nonempty (s t : string) : t ≠ "" → String.rev_app s t ≠ "".
Proof.
  revert t. induction s as [|c s IH]; intros t Ht; [done|].
  simpl. by apply IH.
Qed.

Lemma split_go_nonempty (cur s : string) :
  Forall (λ f, f ≠ "") (Py.split_go cur s).
Proof.
  revert cur. induction s as [|c s IH]; intros cur; simpl.
  - destruct cur as [|c' cur]; simpl; [constructor|].
    repeat constructor. unfold String.rev. simpl. by apply rev_app_nonempty.
  - destruct (Py.isspace c); [|apply IH].
    apply Forall_app. split; [|apply IH].
    destruct cur as [|c' cur]; simpl; [constructor|].
    repeat constructor. unfold String.rev. simpl. by apply rev_app_nonempty.
Qed.

Lemma residue_number_nonempty (line r : string) :
  Spec.residue_number line = Some r → r ≠ "".
Proof.
  unfold Spec.residue_number.
  pose proof (split_go_nonempty "" line) as Hne. fold (Py.split line) in Hne.
  rewrite Forall_forall in Hne.
  destruct (Py.split line !! 4%nat) as [f4|] eqn:E4; [|done].
  destruct (Py.isalpha f4).
  - intros E5. apply Hne. by eapply list_elem_of_lookup_2.
  - destruct (Py.isdigit f4); [|done]. intros [= <-].
    apply Hne. by eapply list_elem_of_lookup_2.
Qed.

Lemma zeros_key (k : nat) (suffix : string) :
  resNumbers_of [Spec.zeros k +:+ "_" +:+ suffix] = [""].
Proof.
  unfold resNumbers_of. simpl. f_equal.
  rewrite split_underscore_0_prefix by (by induction k).
  unfold Py.lstrip0. by induction k.
Qed.

Lemma feature_vector_length (resNumbers : list string) (lines : list string) :
  Forall (λ line, Spec.selected resNumbers line = true → is_Some (Spec.xyz (F:=F) line))
         lines →
  length (Spec.feature_vector (F:=F) resNumbers lines)
  = (3 * length (filter (λ line, Spec.selected resNumbers line = true) lines))%nat.
Proof.
  unfold Spec.feature_vector. induction 1 as [|line lines Hline _ IH]; [done|].
  rewrite filter_cons. case_decide as Hsel; [|done].
  destruct (Hline Hsel) as [v Hv].
  rewrite fmap_cons, Hv. change (mjoin (default [] (Some v) :: ?l)) with (v ++ mjoin l).
  rewrite length_app, IH, length_cons.
  assert (length v = 3%nat) as ->; [|lia].
  unfold Spec.xyz in Hv.
  by destruct (Spec.coordinate 31 39 line), (Spec.coordinate 39 47 line),
    (Spec.coordinate 47 55 line); simplify_eq/=.
Qed.

(** The vector has three numbers for each selected line. *)
Theorem getPDBcoord_three_per_atom (fs : gmap string (list string))
    (pdbPath : string) (lines : list string) (resNumbers : list string) :
  fs !! pdbPath = Some lines →
  Forall Spec.recognized lines →
  Forall (λ line, Spec.selected resNumbers line = true → is_Some (Spec.xyz (F:=F) line))
         lines →
  ∃ v, getPDBcoord fs pdbPath resNumbers = ([], Ok v)
       ∧ length v
         = (3 * length (filter (λ line, Spec.selected resNumbers line = true) lines))%nat.
Proof.
  intros Hfile Hrec Hxyz. eexists. split.
  - unfold getPDBcoord. rewrite Hfile. by rewrite getPDBcoord_lines.
  - by apply feature_vector_length.
Qed.

(** Lines that are not atom records play no part: the file without them
    gives the same result, whatever it is. *)
Theorem getPDBcoord_atom_records_only (fs : gmap string (list string))
    (pdbPath pdbPath' : string) (lines : list string) (resNumbers : list string) :
  fs !! pdbPath = Some lines →
  fs !! pdbPath' = Some (filter (λ line, Spec.is_atom_record line = true) lines) →
  getPDBcoord (F:=F) fs pdbPath resNumbers = getPDBcoord fs pdbPath' resNumbers.
Proof.
  intros H1 H2. unfold getPDBcoord. rewrite H1, H2. clear H1 H2.
  generalize (@nil F) as acc.
  induction lines as [|line lines IH]; intros acc; [done|].
  rewrite filter_cons. case_decide as Hrec.
  - simpl. apply io_bind_ext. intros acc'. apply IH.
  - simpl. rewrite getPDBcoord_line_other by by apply not_true_is_false.
    rewrite io_bind_ret_l. apply IH.
Qed.

(** An atom record whose field 4 is neither alphabetic nor numeric ends the
    extraction with the diagnostic and [sys.exit], whatever was collected
    before and whatever follows. *)
Theorem getPDBcoord_unrecognized_fatal (fs : gmap string (list string))
    (pdbPath : string) (before after : list string) (line f4 : string)
    (resNumbers : list string) :
  fs !! pdbPath = Some (before ++ line :: after) →
  Forall Spec.recognized before →
  Forall (λ l, Spec.selected resNumbers l = true → is_Some (Spec.xyz (F:=F) l)) before →
  Spec.is_atom_record line = true →
  Py.split line !! 4%nat = Some f4 →
  Py.isalpha f4 = false → Py.isdigit f4 = false →
  getPDBcoord (F:=F) fs pdbPath resNumbers
  = ([Print [PStr unrecognized_msg]], Raise SystemExit).
Proof.
  intros Hfile Hrec Hxyz Hatom H4 Ha Hd.
  unfold getPDBcoord. rewrite Hfile, io_fold_app, getPDBcoord_lines by done.
  rewrite io_bind_ret_l. simpl.
  by rewrite (getPDBcoord_line_unrecognized _ _ _ f4).
Qed.

(** A selected line one of whose coordinate columns is not a number ends
    the extraction with ValueError; nothing is printed. *)
Theorem getPDBcoord_bad_number (fs : gmap string (list string))
    (pdbPath : string) (before after : list string) (line : string)
    (resNumbers : list string) :
  fs !! pdbPath = Some (before ++ line :: after) →
  Forall Spec.recognized before →
  Forall (λ l, Spec.selected resNumbers l = true → is_Some (Spec.xyz (F:=F) l)) before →
  Spec.selected resNumbers line = true →
  Spec.xyz (F:=F) line = None →
  getPDBcoord (F:=F) fs pdbPath resNumbers = ([], Raise ValueError).
Proof.
  intros Hfile Hrec Hxyz Hsel Hnone.
  unfold getPDBcoord. rewrite Hfile, io_fold_app, getPDBcoord_lines by done.
  rewrite io_bind_ret_l. simpl.
  by rewrite getPDBcoord_line_selected, Hnone.
Qed.

(** An identifier whose number is made of zeros only gives the empty key,
    which no field equals: residue 0 is never extracted. *)
Theorem getPDBcoord_residue_zero (fs : gmap string (list string))
    (pdbPath : string) (lines : list string) (k : nat) (suffix : string) :
  fs !! pdbPath = Some lines →
  Forall Spec.recognized lines →
  getPDBcoord (F:=F) fs pdbPath (resNumbers_of [Spec.zeros k +:+ "_" +:+ suffix])
  = ([], Ok []).
Proof.
  intros Hfile Hrec. rewrite zeros_key.
  unfold getPDBcoord. rewrite Hfile.
  rewrite (io_fold_pure (λ acc _, acc)).
  - clear. by induction lines.
  - intros acc line Hline. apply getPDBcoord_line_unselected.
    + by apply (proj1 (Forall_forall _ _) Hrec).
    + unfold Spec.selected.
      destruct (Spec.residue_number line) as [r|] eqn:Er;
        [|by rewrite andb_false_r].
      apply residue_number_nonempty in Er.
      rewrite bool_decide_eq_false_2; [by rewrite andb_false_r|].
      intros Hin%list_elem_of_singleton. done.
Qed.

End Extractor_more.

Section Extractor_returns.
Context {F : Type} `{!Numerics F}.

Lemma getPDBcoord_line_ok (resNumbers : list string) (acc : list F)
    (line : string) (t : list (event F)) (v : list F) :
  getPDBcoord_line resNumbers acc line = (t, Ok v) →
  t = [] ∧ (v = acc ∨ ∃ x y z, v = acc ++ [x; y; z]).
Proof.
  unfold getPDBcoord_line, io_index, float_field.
  repeat first
    [ rewrite io_bind_ret_l
    | rewrite io_bind_raise_l
    | match goal with
      | |- context [match ?l !! ?i with _ => _ end] => destruct (l !! i) eqn:?
      | |- context [match float ?s with _ => _ end] => destruct (float s) eqn:?
      | |- context [if ?b then _ else _] => destruct b eqn:?
      end ];
    try (intros [= <- <-]; split; [done|]; auto);
    try done.
  all: right; do 3 eexists; by rewrite <- !app_assoc.
Qed.

Lemma getPDBcoord_lines_ok (resNumbers : list string) (lines : list string)
    (acc : list F) (t : list (event F)) (v : list F) :
  io_fold (getPDBcoord_line resNumbers) acc lines = (t, Ok v) →
  t = [] ∧ ∃ k, length v = (length acc + 3 * k)%nat.
Proof.
  revert acc t v. induction lines as [|line lines IH]; intros acc t v.
  { intros [= <- <-]. split; [done|]. exists 0%nat. lia. }
  simpl.
  destruct (getPDBcoord_line resNumbers acc line) as [t1 [v1|e]] eqn:E1; [|done].
  apply getPDBcoord_line_ok in E1 as [-> Hv1].
  rewrite io_bind_ok.
  destruct (io_fold _ v1 lines) as [t2 [v2|e]] eqn:E2; [|done].
  simpl. intros [= <- <-].
  apply IH in E2 as [-> [k Hk]]. split; [done|].
  destruct Hv1 as [->|(x & y & z & ->)].
  - by exists k.
  - exists (S k). rewrite Hk, length_app. simpl. lia.
Qed.

Lemma getPDBcoord_ok (fs : gmap string (list string))
    (pdbPath : string) (resNumbers : list string)
    (t : list (event F)) (v : list F) :
  getPDBcoord fs pdbPath resNumbers = (t, Ok v) →
  t = [] ∧ ∃ k, length v = (3 * k)%nat.
Proof.
  unfold getPDBcoord. destruct (fs !! pdbPath) as [lines|]; [|done].
  intros [-> [k Hk]]%getPDBcoord_lines_ok. split; [done|]. by exists k.
Qed.

(** Whenever the extractor returns, it has read the file, printed nothing,
    and the vector is made of whole triples. *)
Theorem getPDBcoord_returns_triples (fs : gmap string (list string))
    (pdbPath : string) (resNumbers : list string)
    (t : list (event F)) (v : list F) :
  getPDBcoord fs pdbPath resNumbers = (t, Ok v) →
  is_Some (fs !! pdbPath) ∧ t = [] ∧ ∃ k, length v = (3 * k)%nat.
Proof.
  intros Hrun. split; [|by eapply getPDBcoord_ok].
  unfold getPDBcoord in Hrun. by destruct (fs !! pdbPath).
Qed.

End Extractor_returns.

(** *** The extractor on the sample files *)

Lemma getPDBcoord_three_per_atom_sample :
  ∃ v, getPDBcoord Sample.fs "a.pdb" ["1"; "2"] = ([], Ok v)
       ∧ length v
         = (3 * length (filter (λ line, Spec.selected ["1"; "2"] line = true)
                          [Sample.remark; Sample.n1_chain; Sample.ca1_chain;
                           Sample.ca2_chain; "END"]))%nat.
Proof.
  apply (getPDBcoord_three_per_atom Sample.fs "a.pdb").
  - evaluated.
  - sample_recognized.
  - sample_recognized.
Defined.

Lemma getPDBcoord_atom_records_only_sample :
  getPDBcoord (F:=string) Sample.fs_defects "mixed.pdb" ["1"; "2"]
  = getPDBcoord Sample.fs_defects "atoms.pdb" ["1"; "2"].
Proof.
  apply (getPDBcoord_atom_records_only Sample.fs_defects "mixed.pdb" "atoms.pdb"
           [Sample.remark; Sample.hetero_ca; Sample.ca1_chain; "TER";
            Sample.ca2_chain; "END"]).
  - evaluated.
  - evaluated.
Defined.

Lemma getPDBcoord_unrecognized_fatal_sample :
  getPDBcoord (F:=string) Sample.fs_defects "fused.pdb" ["1"]
  = ([Print [PStr unrecognized_msg]], Raise SystemExit).
Proof.
  apply (getPDBcoord_unrecognized_fatal Sample.fs_defects "fused.pdb"
           [Sample.remark; Sample.ca1_chain] [Sample.ca2_chain]
           Sample.fused_chain "A1000").
  - evaluated.
  - sample_recognized.
  - sample_recognized.
  - evaluated.
  - evaluated.
  - evaluated.
  - evaluated.
Defined.

Lemma getPDBcoord_bad_number_sample :
  getPDBcoord (F:=string) Sample.fs_defects "truncated.pdb" ["1"]
  = ([], Raise ValueError).
Proof.
  apply (getPDBcoord_bad_number Sample.fs_defects "truncated.pdb"
           [Sample.remark; Sample.ca1_chain] [Sample.ca2_chain]
           Sample.truncated_ca).
  - evaluated.
  - sample_recognized.
  - sample_recognized.
  - evaluated.
  - evaluated.
Defined.

Lemma getPDBcoord_residue_zero_sample :
  getPDBcoord (F:=string) Sample.fs "a.pdb" (resNumbers_of ["000_A"]) = ([], Ok []).
Proof.
  apply (getPDBcoord_residue_zero Sample.fs "a.pdb"
           [Sample.remark; Sample.n1_chain; Sample.ca1_chain; Sample.ca2_chain; "END"]
           3 "A").
  - evaluated.
  - sample_recognized.
Defined.

Lemma getPDBcoord_returns_triples_sample :
  is_Some (Sample.fs !! "a.pdb")
  ∧ (@nil (event string)) = []
  ∧ ∃ k, length ["11.104"; "13.207"; "2.100"; "14.500"; "15.250"; "3.750"]
         = (3 * k)%nat.
Proof.
  apply (getPDBcoord_returns_triples Sample.fs "a.pdb" ["1"; "2"]).
  evaluated.
Defined.

(** * Further properties of the builder *)

Section Builder_more.
Context {F : Type} `{!Numerics F}.

Lemma io_fold_raises {A B} (body : B → A → IO F B) (acc : B) (xs : list A) (x : A) :
  x ∈ xs →
  (∀ b, ∃ t e, body b x = (t, Raise e)) →
  ∃ t e, io_fold body acc xs = (t, Raise e).
Proof.
  intros Hin Hx. revert acc.
  induction xs as [|a xs IH]; intros acc; [by apply elem_of_nil in Hin|].
  simpl. apply elem_of_cons in Hin as [<-|Hin].
  - destruct (Hx acc) as (t & e & ->). by exists t, e.
  - destruct (body acc a) as [t1 [b|e1]]; [|by exists t1, e1].
    rewrite io_bind_ok. destruct (IH Hin b) as (t2 & e2 & ->).
    by exists (t1 ++ t2), e2.
Qed.

Lemma makePCAcoords_conf_silent (fs : gmap string (list string)) (c : bool)
    (confs : list (string * gmap string (pyval F)))
    (acc : list (list F)) (name : string) t rows :
  makePCAcoords_conf fs c confs acc name = (t, Ok rows) → t = [].
Proof.
  unfold makePCAcoords_conf, io_getitem.
  destruct (assoc_get confs name) as [d|]; [|done]. rewrite io_bind_ret_l.
  destruct (d !! "path") as [pv|] eqn:Ep; [|done]. rewrite io_bind_ret_l.
  destruct (d !! "complex") as [cv|] eqn:Ec; [|done]. rewrite io_bind_ret_l.
  destruct cv as [| |cx]; [by rewrite io_bind_raise_l..|]. rewrite io_bind_ret_l.
  destruct pv as [p| |]; [|by rewrite io_bind_raise_l..]. rewrite io_bind_ret_l.
  destruct (getPDBcoord fs p _) as [t' [row|e]] eqn:E; [|done].
  apply getPDBcoord_ok in E as [-> _].
  rewrite io_bind_ok. simpl. by intros [= <- _].
Qed.

Lemma makePCAcoords_loop_silent (fs : gmap string (list string)) (c : bool)
    (confs : list (string * gmap string (pyval F)))
    (names : list string) (acc : list (list F)) t rows :
  io_fold (makePCAcoords_conf fs c confs) acc names = (t, Ok rows) → t = [].
Proof.
  revert acc t rows. induction names as [|name names IH]; intros acc t rows.
  { by intros [= <- _]. }
  simpl. destruct (makePCAcoords_conf fs c confs acc name) as [t1 [rows1|e]] eqn:E1; [|done].
  apply makePCAcoords_conf_silent in E1 as ->.
  rewrite io_bind_ok.
  destruct (io_fold _ rows1 names) as [t2 [rows2|e]] eqn:E2; [|done].
  simpl. intros [= <- _]. by eapply IH.
Qed.

Lemma extraction_triples (fs : gmap string (list string)) (c : bool)
    (confs : list (string * gmap string (pyval F))) (name : string) (row : list F) :
  Spec.extraction fs c confs name row → ∃ k, length row = (3 * k)%nat.
Proof. intros (d & p & cx & t & _ & _ & _ & Hrun). by eapply getPDBcoord_ok. Qed.

Lemma same_lengths_true (rows : list (list F)) :
  same_lengths rows = true →
  Forall (λ r, length r = length (default [] (head rows))) rows.
Proof.
  unfold same_lengths. rewrite forallb_forall, Forall_forall.
  intros Hall r Hr. apply list_elem_of_In, Hall in Hr.
  by apply bool_decide_eq_true in Hr.
Qed.

Lemma all_empty_false (rows : list (list F)) :
  all_empty rows = false → ∃ r, r ∈ rows ∧ length r ≠ 0%nat.
Proof.
  unfold all_empty. induction rows as [|r rows IH]; [done|].
  simpl. intros [Hr|Hrows]%andb_false_iff.
  - exists r. split; [left|]. by apply bool_decide_eq_false in Hr.
  - destruct (IH Hrows) as (r' & Hin & Hlen). exists r'. split; [by right|done].
Qed.

Lemma makePCAcoords_frame (fs : gmap string (list string)) (c : bool) (self : Self F) :
  conformations (makePCAcoords fs c self).1 = conformations self
  ∧ vars_data (makePCAcoords fs c self).1 = vars_data self.
Proof.
  rewrite makePCAcoords_run.
  by destruct (io_fold _ [] _) as [t [rows|e]].
Qed.

(** When [makePCAcoords] returns, it has printed nothing and has stored a
    matrix with one row for each conformation, at least one row, and in
    every row the coordinates of one and the same positive number of
    atoms; the other attributes are as they were. *)
Theorem makePCAcoords_returns_matrix (fs : gmap string (list string))
    (consensusResidues : bool) (self : Self F) :
  (makePCAcoords fs consensusResidues self).2.2 = Ok tt →
  ∃ rows k,
    makePCAcoords fs consensusResidues self
    = (set_pcaCoordsArray rows self, ([], Ok tt))
    ∧ length rows = length (conformations self)
    ∧ (0 < length rows)%nat
    ∧ (0 < k)%nat
    ∧ Forall (λ r, length r = (3 * k)%nat) rows.
Proof.
  rewrite makePCAcoords_run.
  destruct (io_fold _ [] _) as [t [rows|e]] eqn:E; [|done].
  destruct (negb (same_lengths rows)) eqn:Hsame; [done|].
  destruct (all_empty rows) eqn:Hempty; [done|]. intros _.
  apply negb_false_iff, same_lengths_true in Hsame.
  apply all_empty_false in Hempty as (r & Hr & Hlen).
  pose proof (makePCAcoords_loop_silent _ _ _ _ _ _ _ E) as ->.
  apply makePCAcoords_loop_ok in E as (new & -> & Hnew). simpl in *.
  assert (∃ k, length r = (3 * k)%nat) as [k Hk].
  { apply list_elem_of_lookup_1 in Hr as [i Hi].
    destruct (Forall2_lookup_r _ _ _ _ _ Hnew Hi) as (name & _ & Hx).
    by eapply extraction_triples. }
  exists new, k. split; [done|]. split; [|split; [|split]].
  - apply Forall2_length in Hnew. rewrite <- Hnew.
    unfold sorted. by rewrite merge_sort_Permutation, length_fmap.
  - destruct new; [by apply elem_of_nil in Hr|simpl; lia].
  - lia.
  - rewrite Forall_forall in Hsame. rewrite Forall_forall. intros r' Hr'.
    rewrite (Hsame r' Hr'), <- (Hsame r Hr). done.
Qed.

(** The matrix is stored before it is checked: once every vector has been
    extracted the attribute holds them, also when a check then ends the
    run, which is the only way the method can still fail; a later
    [plotPCAfig] no longer answers as on a fresh instance. *)
Theorem makePCAcoords_stores_before_checks (fs : gmap string (list string))
    (consensusResidues : bool) (self : Self F)
    (t : list (event F)) (rows : list (list F))
    (projName metric : string) (labels : list string) (dim : Z)
    (templates : list string) :
  io_fold (makePCAcoords_conf fs consensusResidues (conformations self))
          [] (sorted (conformations self).*1) = (t, Ok rows) →
  pcaCoordsArray (makePCAcoords fs consensusResidues self).1 = Some rows
  ∧ ((makePCAcoords fs consensusResidues self).2.2 = Ok tt
     ∨ (makePCAcoords fs consensusResidues self).2.2 = Raise SystemExit)
  ∧ (plotPCAfig projName metric labels dim templates
       (makePCAcoords fs consensusResidues self).1).2
    ≠ (plotPCAfig projName metric labels dim templates
         (init (conformations self))).2.
Proof.
  intros Hloop.
  assert (Harr : pcaCoordsArray (makePCAcoords fs consensusResidues self).1 = Some rows).
  { by rewrite makePCAcoords_run, Hloop. }
  split; [done|]. split.
  - rewrite makePCAcoords_run, Hloop. simpl.
    destruct (negb (same_lengths rows)); [by right|].
    destruct (all_empty rows); [by right|by left].
  - unfold plotPCAfig. rewrite !m_bind_get, Harr. simpl. unfold m_lift. simpl.
    destruct (pca_fit_transform dim rows) as [[X_r ratio]|]; [|done].
    rewrite io_bind_ret_l. unfold io_print at 1. rewrite io_bind_ok. simpl.
    intros Heq. apply (f_equal (λ r : IO F unit, head r.1)) in Heq.
    simpl in Heq. discriminate Heq.
Qed.

(** A conformation whose file is missing makes the whole method fail, and
    the instance is left as it was: the matrix of an earlier run is not
    replaced. *)
Theorem makePCAcoords_missing_file (fs : gmap string (list string))
    (consensusResidues : bool) (self : Self F)
    (name : string) (d : gmap string (pyval F)) (p : string) (cx : Complex) :
  assoc_get (conformations self) name = Some d →
  d !! "path" = Some (VStr p) →
  d !! "complex" = Some (VComplex cx) →
  fs !! p = None →
  ∃ t e, makePCAcoords fs consensusResidues self = (self, (t, Raise e)).
Proof.
  intros Hd Hp Hc Hfile. rewrite makePCAcoords_run.
  destruct (io_fold_raises
              (makePCAcoords_conf fs consensusResidues (conformations self))
              [] (sorted (conformations self).*1) name) as (t & e & ->).
  - unfold sorted. rewrite merge_sort_Permutation.
    apply list_elem_of_fmap. exists (name, d). split; [done|].
    by apply assoc_get_Some.
  - intros b. exists [], IOError.
    unfold makePCAcoords_conf. rewrite Hd. simpl. rewrite io_bind_ret_l, Hp.
    simpl. rewrite io_bind_ret_l, Hc. simpl. rewrite !io_bind_ret_l.
    unfold getPDBcoord. by rewrite Hfile.
  - by exists t, e.
Qed.

(** With no conformation at all the method stores the empty matrix and
    ends the run with the message of the empty batch. *)
Theorem makePCAcoords_no_conformation (fs : gmap string (list string))
    (consensusResidues : bool) (self : Self F) :
  conformations self = [] →
  makePCAcoords fs consensusResidues self
  = (set_pcaCoordsArray [] self, ([Print [PStr empty_msg]], Raise SystemExit)).
Proof. intros Hnone. rewrite makePCAcoords_run, Hnone. done. Qed.

End Builder_more.

(** * Further properties of the collector *)

Section Collector_more.
Context {F : Type} `{!Numerics F}.

Lemma metric_column_result (confs : list (string * gmap string (pyval F)))
    (metric : string) (names : list string) :
  let r := Spec.metric_column confs metric names in
  Forall2 (Spec.metric_of confs metric) (take (length r.1) names) r.1
  ∧ ((r.2 = Ok tt ∧ length r.1 = length names)
     ∨ (r.2 = Raise KeyError
        ∧ ∃ name, names !! length r.1 = Some name
                  ∧ ∀ v, ¬ Spec.metric_of confs metric name v)).
Proof.
  induction names as [|name names IH]; simpl.
  { split; [constructor|by left]. }
  destruct (assoc_get confs name) as [d|] eqn:Ed.
  2: { simpl. split; [constructor|]. right. split; [done|].
       exists name. split; [done|]. intros v (d & Hd & _). congruence. }
  destruct (d !! metric) as [v|] eqn:Ev.
  2: { simpl. split; [constructor|]. right. split; [done|].
       exists name. split; [done|]. intros v (d' & Hd & Hv). congruence. }
  destruct (Spec.metric_column confs metric names) as [vs r]. simpl in *.
  destruct IH as [Hvals Hr]. split.
  - constructor; [by exists d|done].
  - destruct Hr as [[-> Hlen]|[-> Hname]]; [left|right]; split; auto.
Qed.

Lemma makePCAmetric_frame (metric : string) (self : Self F) :
  conformations (makePCAmetric metric self).1 = conformations self
  ∧ pcaCoordsArray (makePCAmetric metric self).1 = pcaCoordsArray self.
Proof. by rewrite makePCAmetric_run. Qed.

(** [makePCAmetric] never prints; it returns exactly when every
    conformation has the metric, and fails with KeyError otherwise. *)
Theorem makePCAmetric_returns_iff (metric : string) (self : Self F) :
  NoDup (conformations self).*1 →
  (makePCAmetric metric self).2.1 = []
  ∧ ((makePCAmetric metric self).2.2 = Ok tt
     ↔ Forall (λ nd, is_Some (nd.2 !! metric)) (conformations self))
  ∧ ((makePCAmetric metric self).2.2 = Ok tt
     ∨ (makePCAmetric metric self).2.2 = Raise KeyError).
Proof.
  intros Hnd. rewrite makePCAmetric_run. simpl. split; [done|].
  pose proof (metric_column_result (conformations self) metric
                (sorted (conformations self).*1)) as [Hvals Hr].
  simpl in Hvals, Hr.
  destruct (Spec.metric_column _ _ _) as [vals r]. simpl in *.
  assert (Hnames : ∀ name, name ∈ sorted (conformations self).*1
                           ↔ name ∈ (conformations self).*1).
  { intros name. unfold sorted. by rewrite merge_sort_Permutation. }
  split; [|destruct Hr as [[-> _]|[-> _]]; auto].
  split.
  - intros ->. destruct Hr as [[_ Hlen]|[? _]]; [|done].
    rewrite Hlen, firstn_all in Hvals.
    apply Forall_forall. intros [name d] Hin. simpl.
    assert (Hname : name ∈ sorted (conformations self).*1).
    { apply Hnames, list_elem_of_fmap. by exists (name, d). }
    apply list_elem_of_lookup_1 in Hname as [i Hi].
    destruct (Forall2_lookup_l _ _ _ _ _ Hvals Hi) as (v & _ & d' & Hd' & Hv).
    rewrite (assoc_get_elem _ _ d Hnd Hin) in Hd'. by simplify_eq.
  - intros Hall. destruct Hr as [[-> _]|[_ (name & Hname & Hnot)]]; [done|].
    exfalso.
    apply list_elem_of_lookup_2, Hnames, list_elem_of_fmap in Hname
      as ([name' d] & -> & Hin).
    rewrite Forall_forall in Hall. destruct (Hall _ Hin) as [v Hv].
    apply (Hnot v). exists d. split; [by apply assoc_get_elem|done].
Qed.

(** A failed collection is not undone: the method raises KeyError at the
    first conformation, in the sorted order of the names, that lacks the
    metric, and leaves the table with the values of the conformations
    before that one, fewer values than there are conformations; nothing
    else of the instance changes. *)
Theorem makePCAmetric_partial_table (metric : string) (self : Self F) :
  (makePCAmetric metric self).2.2 ≠ Ok tt →
  ∃ vals name,
    makePCAmetric metric self
    = (set_vars_data {[metric := vals]} self, ([], Raise KeyError))
    ∧ (length vals < length (conformations self))%nat
    ∧ Forall2 (Spec.metric_of (conformations self) metric)
              (take (length vals) (sorted (conformations self).*1)) vals
    ∧ sorted (conformations self).*1 !! length vals = Some name
    ∧ ∀ v, ¬ Spec.metric_of (conformations self) metric name v.
Proof.
  rewrite makePCAmetric_run. simpl.
  pose proof (metric_column_result (conformations self) metric
                (sorted (conformations self).*1)) as [Hvals Hr].
  simpl in Hvals, Hr.
  destruct (Spec.metric_column _ _ _) as [vals r]. simpl in *.
  intros Hfail. destruct Hr as [[-> _]|[-> (name & Hname & Hnot)]]; [done|].
  exists vals, name. split; [done|]. split; [|done].
  apply lookup_lt_Some in Hname.
  unfold sorted in Hname. by rewrite merge_sort_Permutation, length_fmap in Hname.
Qed.

(** Collecting replaces the table: what an earlier collection stored is
    gone, and the table holds the requested metric and nothing else. *)
Theorem makePCAmetric_replaces_table (m1 m2 : string) (self : Self F) :
  makePCAmetric m2 (makePCAmetric m1 self).1 = makePCAmetric m2 self
  ∧ ∃ vals, vars_data (makePCAmetric m2 self).1 = Some {[m2 := vals]}.
Proof.
  split.
  - rewrite (makePCAmetric_run m2 (makePCAmetric m1 self).1).
    rewrite (proj1 (makePCAmetric_frame m1 self)).
    rewrite (makePCAmetric_run m2 self), (makePCAmetric_run m1 self). done.
  - rewrite makePCAmetric_run. by eexists.
Qed.

(** The two preparation steps do not interfere: each one prints and
    returns the same whether or not the other has run, and both orders
    leave the same instance. *)
Theorem makePCAcoords_makePCAmetric_commute (fs : gmap string (list string))
    (consensusResidues : bool) (metric : string) (self : Self F) :
  (makePCAmetric metric (makePCAcoords fs consensusResidues self).1).1
  = (makePCAcoords fs consensusResidues (makePCAmetric metric self).1).1
  ∧ (makePCAmetric metric (makePCAcoords fs consensusResidues self).1).2
    = (makePCAmetric metric self).2
  ∧ (makePCAcoords fs consensusResidues (makePCAmetric metric self).1).2
    = (makePCAcoords fs consensusResidues self).2.
Proof.
  rewrite (makePCAmetric_run metric (makePCAcoords fs consensusResidues self).1).
  rewrite (proj1 (makePCAcoords_frame fs consensusResidues self)).
  rewrite (makePCAcoords_run fs consensusResidues (makePCAmetric metric self).1).
  rewrite (proj1 (makePCAmetric_frame metric self)).
  rewrite (makePCAmetric_run metric self), (makePCAcoords_run fs consensusResidues self).
  simpl.
  destruct (io_fold _ [] _) as [t [rows|e]]; simpl; [|done].
  by destruct (negb (same_lengths rows)), (all_empty rows).
Qed.

End Collector_more.

(** *** The builder and the collector on further sample batches *)

Lemma makePCAcoords_returns_matrix_sample :
  ∃ rows k,
    makePCAcoords Sample.fs true (init Sample.confs)
    = (set_pcaCoordsArray rows (init Sample.confs), ([], Ok tt))
    ∧ length rows = length (conformations (init Sample.confs))
    ∧ (0 < length rows)%nat
    ∧ (0 < k)%nat
    ∧ Forall (λ r, length r = (3 * k)%nat) rows.
Proof. apply makePCAcoords_returns_matrix. evaluated. Defined.

Lemma makePCAcoords_stores_before_checks_sample :
  pcaCoordsArray (makePCAcoords Sample.fs false (init Sample.confs)).1
  = Some Sample.rows_all_residues
  ∧ ((makePCAcoords Sample.fs false (init Sample.confs)).2.2 = Ok tt
     ∨ (makePCAcoords Sample.fs false (init Sample.confs)).2.2 = Raise SystemExit)
  ∧ (plotPCAfig "run" "tanimoto" ["pose_a"; "pose_b"] 2 []
       (makePCAcoords Sample.fs false (init Sample.confs)).1).2
    ≠ (plotPCAfig "run" "tanimoto" ["pose_a"; "pose_b"] 2 []
         (init (conformations (init Sample.confs)))).2.
Proof.
  apply (makePCAcoords_stores_before_checks Sample.fs false (init Sample.confs) []).
  evaluated.
Defined.

Lemma makePCAcoords_missing_file_sample :
  ∃ t e, makePCAcoords Sample.fs true (init Sample.confs_missing)
         = (init Sample.confs_missing, (t, Raise e)).
Proof.
  apply (makePCAcoords_missing_file Sample.fs true (init Sample.confs_missing)
           "pose_x" (Sample.conf "x.pdb" "0.1") "x.pdb" Sample.pocket);
    evaluated.
Defined.

Lemma makePCAcoords_no_conformation_sample :
  makePCAcoords Sample.fs true (init (F:=string) [])
  = (set_pcaCoordsArray [] (init []), ([Print [PStr empty_msg]], Raise SystemExit)).
Proof. apply makePCAcoords_no_conformation. reflexivity. Defined.

Lemma makePCAmetric_returns_iff_sample :
  (makePCAmetric "tanimoto" (init Sample.confs)).2.1 = []
  ∧ ((makePCAmetric "tanimoto" (init Sample.confs)).2.2 = Ok tt
     ↔ Forall (λ nd, is_Some (nd.2 !! "tanimoto")) (conformations (init Sample.confs)))
  ∧ ((makePCAmetric "tanimoto" (init Sample.confs)).2.2 = Ok tt
     ∨ (makePCAmetric "tanimoto" (init Sample.confs)).2.2 = Raise KeyError).
Proof.
  apply makePCAmetric_returns_iff.
  apply NoDup_cons. split; [|apply NoDup_singleton].
  intros Hin%list_elem_of_singleton. discriminate Hin.
Defined.

Lemma makePCAmetric_partial_table_sample :
  ∃ vals name,
    makePCAmetric "tanimoto" (init Sample.confs_partial)
    = (set_vars_data {["tanimoto" := vals]} (init Sample.confs_partial),
       ([], Raise KeyError))
    ∧ (length vals < length (conformations (init Sample.confs_partial)))%nat
    ∧ Forall2 (Spec.metric_of (conformations (init Sample.confs_partial)) "tanimoto")
              (take (length vals)
                 (sorted (conformations (init Sample.confs_partial)).*1)) vals
    ∧ sorted (conformations (init Sample.confs_partial)).*1 !! length vals
      = Some name
    ∧ ∀ v, ¬ Spec.metric_of (conformations (init Sample.confs_partial))
               "tanimoto" name v.
Proof.
  apply makePCAmetric_partial_table.
  intros Hok. vm_compute in Hok. discriminate Hok.
Defined.

(** The values behind these runs. *)
Example sample_partial_table :
  makePCAmetric "tanimoto" (init Sample.confs_partial)
  = (set_vars_data {["tanimoto" := [VNum "0.7"]]} (init Sample.confs_partial),
     ([], Raise KeyError)).
Proof. evaluated. Qed.

Example sample_missing_file :
  makePCAcoords Sample.fs true (init Sample.confs_missing)
  = (init Sample.confs_missing, ([], Raise IOError)).
Proof. evaluated. Qed.

(** * Further properties of the charts *)

Section Chart_more.
Context {F : Type} `{!Numerics F}.

Lemma io_bind_ret_r (m : IO F unit) : io_bind m (λ _, io_ret tt) = m.
Proof.
  destruct m as [t [[]|e]]; [|done].
  rewrite io_bind_ok. simpl. by rewrite app_nil_r.
Qed.

Lemma annotate_3d_labelled (P : event F → Prop) (labels : list string)
    (xs ys zs : list F) :
  (∀ l pt, l ≠ "" → P (Annotate l pt)) → Forall P (annotate_3d labels xs ys zs).1.
Proof.
  intros HP. rewrite annotate_3d_events. simpl.
  apply Forall_fmap, Forall_forall. intros p [Hp _]%list_elem_of_filter.
  by apply HP.
Qed.

Lemma np_column_cases (k : nat) (rows : list (list F)) :
  (∃ c, np_column k rows = io_ret c) ∨ np_column k rows = io_raise IndexError.
Proof.
  unfold np_column, column. destruct rows as [|r rows]; [by right|].
  destruct (mapM _ _); eauto.
Qed.

Lemma select_metric_prints (table : option (gmap string (list (pyval F))))
    (metric : string) :
  ∃ ts vd va,
    select_metric table metric = (ts, Ok (vd, va))
    ∧ (ts = [] ∨ ts = [Print [PStr missing_metric_msg]])
    ∧ (ts = [Print [PStr missing_metric_msg]]
       ↔ ∃ t, table = Some t ∧ t !! metric = None).
Proof.
  unfold select_metric. destruct table as [t|].
  - destruct (t !! metric) eqn:E.
    + do 3 eexists. split; [reflexivity|]. split; [by left|].
      split; [done|]. intros (t' & [= <-] & E'). congruence.
    + do 3 eexists. split; [reflexivity|]. split; [by right|].
      split; [|done]. intros _. by exists t.
  - do 3 eexists. split; [reflexivity|]. split; [by left|].
    split; [done|]. by intros (t' & [=] & _).
Qed.

(** What every event of a chart satisfies, given what the events of each
    kind satisfy; an annotation in three dimensions has a label. *)
Section Drawing.
Variable P : event F → Prop.
Variable dim : Z.
Hypothesis P_figure : ∀ title, P (Figure title).
Hypothesis P_scatter : ∀ columns marker c, P (Scatter columns marker c).
Hypothesis P_annotate : ∀ l pt, (dim = 3%Z → l ≠ "") → P (Annotate l pt).
Hypothesis P_axis : ∀ axis pc, P (AxisLabel axis pc).
Hypothesis P_colorbar : ∀ name, P (Colorbar name).

Ltac drawing :=
  repeat first
    [ apply np_column_trace
    | apply column_trace
    | apply annotate_2d_trace; intros; apply P_annotate; intros; lia
    | apply annotate_3d_labelled; intros; by apply P_annotate
    | apply axis_label_trace; exact P_axis
    | match goal with
      | |- Forall _ (if ?b then _ else _).1 => destruct b eqn:?
      end
    | match goal with
      | H : bool_decide _ = true |- _ => apply bool_decide_eq_true in H
      end
    | apply io_bind_trace; [|intros ? ?]
    | apply Forall_nil_2
    | apply Forall_cons_2;
      [ first [apply P_figure | apply P_scatter | apply P_colorbar]
      | apply Forall_nil_2 ] ].

Lemma pcaSubplot_vars_drawing (X_r : list (list F)) (varData : list (pyval F))
    (varName : option string) (PCs_round : list F)
    (labels template_list : list string) :
  Forall P (pcaSubplot_vars X_r dim varData varName PCs_round labels template_list).1.
Proof.
  unfold pcaSubplot_vars.
  destruct (split_templates labels varData X_r template_list) as [[tp cd] cp].
  drawing.
Qed.

Lemma pcaSubplot_drawing (X_r : list (list F)) (PCs_round : list F)
    (labels template_list : list string) :
  Forall P (pcaSubplot X_r dim PCs_round labels template_list).1.
Proof. unfold pcaSubplot. drawing. Qed.

Lemma render_drawing (X_r : list (list F))
    (var_data : option (option (list (pyval F))))
    (var_axis : option (option string)) (PCs_round : list F)
    (labels templates : list string) :
  Forall P (render X_r dim var_data var_axis PCs_round labels templates).1.
Proof.
  unfold render, io_local.
  destruct var_data as [[[|d ds]|]|];
    [rewrite io_bind_ret_l; apply pcaSubplot_drawing
    | | rewrite io_bind_ret_l; apply pcaSubplot_drawing
    | rewrite io_bind_raise_l; constructor].
  rewrite io_bind_ret_l.
  destruct var_axis as [varName|]; [|rewrite io_bind_raise_l; constructor].
  rewrite io_bind_ret_l. apply pcaSubplot_vars_drawing.
Qed.

Hypothesis P_print : ∀ items, P (Print items).
Hypothesis P_savefig : ∀ fname, P (Savefig fname).

Lemma plotPCAfig_events (self : Self F) (projName metric : string)
    (labels templates : list string) :
  Forall P (plotPCAfig projName metric labels dim templates self).2.1.
Proof.
  unfold plotPCAfig. rewrite m_bind_get.
  destruct (pcaCoordsArray self) as [arr|]; unfold m_lift; simpl.
  2: { repeat constructor; apply P_print. }
  destruct (pca_fit_transform dim arr) as [[X_r ratio]|];
    [|rewrite io_bind_raise_l; constructor].
  rewrite io_bind_ret_l.
  apply io_bind_trace; [repeat constructor; apply P_print|intros _ _].
  apply io_bind_trace; [repeat constructor; apply P_print|intros _ _].
  apply io_bind_trace.
  { destruct (select_metric_prints (vars_data self) metric)
      as (ts & vd & va & -> & [-> | ->] & _); repeat constructor. apply P_print. }
  intros [vd va] _.
  apply io_bind_trace; [|intros _ _]; case_bool_decide; try apply Forall_nil_2.
  - apply io_bind_trace; [apply render_drawing|intros _ _].
    repeat constructor; apply P_savefig.
  - apply io_bind_trace; [apply render_drawing|intros _ _].
    repeat constructor; apply P_savefig.
Qed.

End Drawing.

Lemma plotPCAfig_run (self : Self F) (projName metric : string)
    (labels : list string) (dim : Z) (templates : list string)
    (arr X_r : list (list F)) (ratio : list F) ts vd va :
  pcaCoordsArray self = Some arr →
  pca_fit_transform dim arr = Some (X_r, ratio) →
  select_metric (vars_data self) metric = (ts, Ok (vd, va)) →
  plotPCAfig projName metric labels dim templates self
  = (self,
     let drawn : IO F unit :=
       if bool_decide (dim = 2%Z) then
         io_bind (render X_r dim vd va (round_pct <$> ratio) labels templates)
                 (λ _, ([Savefig (projName +:+ "_PCA.svg");
                         Savefig (projName +:+ "_PCA.png")], Ok tt))
       else if bool_decide (dim = 3%Z) then
         io_bind (render X_r dim vd va (round_pct <$> ratio) labels templates)
                 (λ _, ([Savefig (projName +:+ "_PCA3D.svg");
                         Savefig (projName +:+ "_PCA3D.png")], Ok tt))
       else ([], Ok tt) in
     ([Print [PStr "Explained variance ratio (first "; PInt dim;
              PStr " components): "; PNums ratio];
       Print [PStr "PCs rounded at "; PInt 2; PStr " decimals: ";
              PNums (round_pct <$> ratio)]] ++ ts ++ drawn.1,
      drawn.2)).
Proof.
  intros Harr Hpca Hsel. unfold plotPCAfig.
  rewrite m_bind_get, Harr, Hpca. unfold m_lift. f_equal.
  rewrite io_bind_ret_l. unfold io_print. rewrite !io_bind_ok. simpl.
  rewrite Hsel, io_bind_ok. simpl.
  destruct (decide (dim = 2%Z)) as [->|Hd2].
  { rewrite io_bind_ret_r. reflexivity. }
  rewrite (bool_decide_eq_false_2 (dim = 2%Z)) by done.
  rewrite io_bind_ret_l.
  case_bool_decide; reflexivity.
Qed.

(** With a dimension other than 2 and 3 the method prints the variance
    lines, and the warning exactly when the table exists and lacks the
    metric, and returns: nothing is drawn or saved and no error is
    raised, whatever the metric. *)
Theorem plotPCAfig_other_dimension (self : Self F) (projName metric : string)
    (labels : list string) (dim : Z) (templates : list string)
    (arr X_r : list (list F)) (ratio : list F) :
  pcaCoordsArray self = Some arr →
  pca_fit_transform dim arr = Some (X_r, ratio) →
  dim ≠ 2%Z → dim ≠ 3%Z →
  ∃ warning,
    plotPCAfig projName metric labels dim templates self
    = (self,
       ([Print [PStr "Explained variance ratio (first "; PInt dim;
                PStr " components): "; PNums ratio];
         Print [PStr "PCs rounded at "; PInt 2; PStr " decimals: ";
                PNums (round_pct <$> ratio)]] ++ warning,
        Ok tt))
    ∧ (warning = [] ∨ warning = [Print [PStr missing_metric_msg]])
    ∧ (warning = [Print [PStr missing_metric_msg]]
       ↔ ∃ table, vars_data self = Some table ∧ table !! metric = None).
Proof.
  intros Harr Hpca Hd2 Hd3.
  destruct (select_metric_prints (vars_data self) metric)
    as (ts & vd & va & Hsel & Hts & Hwarn).
  exists ts. split; [|done].
  erewrite plotPCAfig_run by done.
  rewrite !bool_decide_eq_false_2 by done. simpl. by rewrite app_nil_r.
Qed.

(** [plotPCAfig] leaves the instance as it was, and it saves a file only
    after a rendering that succeeded: a trace with a saved file belongs to
    a run in two or three dimensions that returned. *)
Theorem plotPCAfig_saves_after_rendering (self : Self F) (projName metric : string)
    (labels : list string) (dim : Z) (templates : list string) :
  (plotPCAfig projName metric labels dim templates self).1 = self
  ∧ ∀ fname,
      Savefig fname ∈ (plotPCAfig projName metric labels dim templates self).2.1 →
      (plotPCAfig projName metric labels dim templates self).2.2 = Ok tt
      ∧ (dim = 2%Z ∨ dim = 3%Z).
Proof.
  assert (Hprints : ∀ (ts : list (event F)) fname,
            ts = [] ∨ ts = [Print [PStr missing_metric_msg]] → Savefig fname ∉ ts).
  { intros ts fname [-> | ->]; [apply not_elem_of_nil|].
    intros Hin%list_elem_of_singleton. discriminate Hin. }
  assert (Hrender : ∀ (X_r : list (list F)) vd va PCs fname,
            Savefig fname ∉ (render X_r dim vd va PCs labels templates).1).
  { intros X_r vd va PCs fname Hin.
    pose proof (render_drawing (λ e : event F, ∀ f, e ≠ Savefig f) dim) as Hdraw.
    eapply Forall_forall in Hdraw; [by eapply Hdraw|done..|exact Hin]. }
  destruct (pcaCoordsArray self) as [arr|] eqn:Harr.
  2: { unfold plotPCAfig. rewrite m_bind_get, Harr. simpl. split; [done|].
       intros fname Hin. exfalso.
       repeat (apply elem_of_cons in Hin as [Hin|Hin]; [discriminate Hin|]).
       by apply elem_of_nil in Hin. }
  destruct (pca_fit_transform dim arr) as [[X_r ratio]|] eqn:Hpca.
  2: { unfold plotPCAfig. rewrite m_bind_get, Harr, Hpca. simpl. split; [done|].
       intros fname Hin. by apply elem_of_nil in Hin. }
  destruct (select_metric_prints (vars_data self) metric)
    as (ts & vd & va & Hsel & Hts & Hwarn).
  erewrite plotPCAfig_run by done. simpl. split; [done|].
  intros fname Hin.
  apply elem_of_cons in Hin as [Hin|Hin]; [discriminate Hin|].
  apply elem_of_cons in Hin as [Hin|Hin]; [discriminate Hin|].
  apply elem_of_app in Hin as [Hin|Hin]; [by apply Hprints in Hin|].
  revert Hin.
  case_bool_decide; [|case_bool_decide]; [| |by intros ?%elem_of_nil].
  - destruct (render X_r dim vd va _ labels templates) as [tr [[]|e]] eqn:Hr.
    + rewrite io_bind_ok. simpl. auto.
    + simpl. intros Hin. exfalso. apply (Hrender X_r vd va (round_pct <$> ratio) fname).
      by rewrite Hr.
  - destruct (render X_r dim vd va _ labels templates) as [tr [[]|e]] eqn:Hr.
    + rewrite io_bind_ok. simpl. auto.
    + simpl. intros Hin. exfalso. apply (Hrender X_r vd va (round_pct <$> ratio) fname).
      by rewrite Hr.
Qed.

Lemma pcaSubplot_vars_opens (X_r : list (list F)) (dim : Z)
    (varData : list (pyval F)) (varName : option string) (PCs_round : list F)
    (labels template_list : list string) :
  dim = 2%Z ∨ dim = 3%Z →
  ∃ title rest,
    (pcaSubplot_vars X_r dim varData varName PCs_round labels template_list).1
    = Figure title :: rest.
Proof.
  intros Hdim. unfold pcaSubplot_vars.
  destruct (split_templates labels varData X_r template_list) as [[tp cd] cp].
  destruct Hdim as [-> | ->].
  - rewrite (bool_decide_eq_true_2 (2 = 2)%Z) by done. simpl.
    rewrite ?io_bind_assoc. unfold io_emit at 1. rewrite io_bind_emit. simpl. eauto.
  - rewrite (bool_decide_eq_false_2 (3 = 2)%Z), (bool_decide_eq_true_2 (3 = 3)%Z) by done.
    simpl. rewrite io_bind_ret_l.
    rewrite ?io_bind_assoc. unfold io_emit at 1. rewrite io_bind_emit. simpl. eauto.
Qed.

Lemma pcaSubplot_opens (X_r : list (list F)) (dim : Z) (PCs_round : list F)
    (labels template_list : list string) :
  dim = 2%Z ∨ dim = 3%Z →
  ∃ title rest,
    (pcaSubplot X_r dim PCs_round labels template_list).1 = Figure title :: rest.
Proof.
  intros Hdim. unfold pcaSubplot.
  destruct Hdim as [-> | ->].
  - rewrite (bool_decide_eq_true_2 (2 = 2)%Z) by done. simpl.
    rewrite ?io_bind_assoc. unfold io_emit at 1. rewrite io_bind_emit. simpl. eauto.
  - rewrite (bool_decide_eq_false_2 (3 = 2)%Z), (bool_decide_eq_true_2 (3 = 3)%Z) by done.
    simpl. rewrite io_bind_ret_l.
    rewrite ?io_bind_assoc. unfold io_emit at 1. rewrite io_bind_emit. simpl. eauto.
Qed.

Lemma render_opens (X_r : list (list F)) (dim : Z)
    (var_data : option (option (list (pyval F))))
    (var_axis : option (option string)) (PCs_round : list F)
    (labels templates : list string) tr :
  dim = 2%Z ∨ dim = 3%Z →
  render X_r dim var_data var_axis PCs_round labels templates = (tr, Ok tt) →
  ∃ title rest, tr = Figure title :: rest.
Proof.
  intros Hdim. unfold render, io_local.
  destruct var_data as [[[|d ds]|]|]; [| | |done]; rewrite io_bind_ret_l.
  - intros Hr. destruct (pcaSubplot_opens X_r dim PCs_round labels templates Hdim)
      as (title & rest & Ht). rewrite Hr in Ht. eauto.
  - destruct var_axis as [varName|]; [|done]. rewrite io_bind_ret_l.
    intros Hr.
    destruct (pcaSubplot_vars_opens X_r dim (d :: ds) varName PCs_round
                labels templates Hdim) as (title & rest & Ht).
    rewrite Hr in Ht. eauto.
  - intros Hr. destruct (pcaSubplot_opens X_r dim PCs_round labels templates Hdim)
      as (title & rest & Ht). rewrite Hr in Ht. eauto.
Qed.

(** A run in two or three dimensions that returns has opened a figure
    and ends by saving it twice, as [<projName>_PCA.svg] and
    [<projName>_PCA.png] in two dimensions and with [_PCA3D] in three;
    nothing is saved before. *)
Theorem plotPCAfig_writes_both_files (self : Self F) (projName metric : string)
    (labels : list string) (dim : Z) (templates : list string)
    (arr : list (list F)) :
  pcaCoordsArray self = Some arr →
  dim = 2%Z ∨ dim = 3%Z →
  (plotPCAfig projName metric labels dim templates self).2.2 = Ok tt →
  ∃ drawn,
    (plotPCAfig projName metric labels dim templates self).2.1
    = drawn
      ++ [Savefig (projName +:+ (if bool_decide (dim = 2%Z) then "_PCA.svg"
                                 else "_PCA3D.svg"));
          Savefig (projName +:+ (if bool_decide (dim = 2%Z) then "_PCA.png"
                                 else "_PCA3D.png"))]
    ∧ Forall (λ e : event F, ∀ fname, e ≠ Savefig fname) drawn
    ∧ ∃ title, Figure title ∈ drawn.
Proof.
  intros Harr Hdim.
  destruct (pca_fit_transform dim arr) as [[X_r ratio]|] eqn:Hpca.
  2: { unfold plotPCAfig. rewrite m_bind_get, Harr, Hpca. done. }
  destruct (select_metric_prints (vars_data self) metric)
    as (ts & vd & va & Hsel & Hts & Hwarn).
  erewrite plotPCAfig_run by done. simpl.
  pose proof (render_drawing (λ e : event F, ∀ f, e ≠ Savefig f) dim) as Hdraw.
  specialize (Hdraw ltac:(done) ltac:(done) ltac:(done) ltac:(done) ltac:(done)
                X_r vd va (round_pct <$> ratio) labels templates).
  pose proof (render_opens X_r dim vd va (round_pct <$> ratio) labels templates)
    as Hopen.
  destruct (render X_r dim vd va _ labels templates) as [tr [[]|e]] eqn:Hr.
  2: { destruct Hdim as [-> | ->]; done. }
  destruct (Hopen tr Hdim eq_refl) as (title & rest & ->).
  assert (Hts' : Forall (λ e : event F, ∀ f, e ≠ Savefig f) ts).
  { destruct Hts as [-> | ->]; repeat constructor; done. }
  intros _.
  exists ([Print [PStr "Explained variance ratio (first "; PInt dim;
                  PStr " components): "; PNums ratio];
           Print [PStr "PCs rounded at "; PInt 2; PStr " decimals: ";
                  PNums (round_pct <$> ratio)]]
            ++ ts ++ Figure title :: rest).
  split; [|split].
  - destruct Hdim as [-> | ->]; simpl; f_equal; f_equal;
      by rewrite <- app_assoc.
  - repeat (apply Forall_cons_2; [done|]). apply Forall_app. by split.
  - exists title. do 2 right. apply elem_of_app. right. left.
Qed.

(** In three dimensions no point is annotated with the empty label,
    with or without a metric. *)
Theorem plotPCAfig_3d_skips_empty_label (self : Self F) (projName metric : string)
    (labels templates : list string) (pt : list F) :
  Annotate "" pt ∉ (plotPCAfig projName metric labels 3 templates self).2.1.
Proof.
  intros Hin.
  assert (Hall : Forall (λ e : event F, ∀ pt, e ≠ Annotate "" pt)
                   (plotPCAfig projName metric labels 3 templates self).2.1).
  { apply plotPCAfig_events; try done.
    intros l pt' Hl pt1 [= -> _]. by apply Hl. }
  rewrite Forall_forall in Hall. by apply (Hall _ Hin pt).
Qed.

Ltac unfinished :=
  split;
  [ reflexivity
  | repeat (apply Forall_cons_2;
            [first [by left; eexists | by right; do 2 eexists]|]);
    apply Forall_nil_2 ].

(** The metric-coloured chart needs a point in each group: when no label
    with a value and a position is a template, or all of them are, the
    rendering in two or three dimensions raises IndexError with the chart
    unfinished, nothing but the figure and at most the colour-mapped group
    drawn. *)
Theorem pcaSubplot_vars_needs_both_groups (X_r : list (list F)) (dim : Z)
    (varData : list (pyval F)) (varName : option string) (PCs_round : list F)
    (labels template_list : list string) :
  dim = 2%Z ∨ dim = 3%Z →
  Spec.template_positions template_list (Spec.points labels varData X_r) = []
  ∨ Spec.conformation_positions template_list (Spec.points labels varData X_r) = [] →
  (pcaSubplot_vars X_r dim varData varName PCs_round labels template_list).2
  = Raise IndexError
  ∧ Forall (λ e, (∃ title, e = Figure title) ∨ (∃ columns c, e = Scatter columns "o" c))
           (pcaSubplot_vars X_r dim varData varName PCs_round labels template_list).1.
Proof.
  intros Hdim Hempty. unfold pcaSubplot_vars. rewrite split_templates_groups.
  set (cp := Spec.conformation_positions _ _) in *.
  set (tp := Spec.template_positions _ _) in *.
  assert (Hcp : cp = [] ∨ tp = []) by tauto. clear Hempty.
  destruct Hdim as [-> | ->].
  - rewrite (bool_decide_eq_true_2 (2 = 2)%Z), (bool_decide_eq_false_2 (2 = 3)%Z) by done.
    rewrite io_bind_ret_r.
    destruct Hcp as [-> | ->].
    { unfinished. }
    destruct (np_column_cases 0 cp) as [[c0 E0]|E0]; rewrite E0;
      [|unfinished].
    destruct (np_column_cases 1 cp) as [[c1 E1]|E1]; rewrite E1;
      [|unfinished].
    unfinished.
  - rewrite (bool_decide_eq_false_2 (3 = 2)%Z), (bool_decide_eq_true_2 (3 = 3)%Z) by done.
    rewrite io_bind_ret_l.
    destruct Hcp as [-> | ->].
    { unfinished. }
    destruct (np_column_cases 0 cp) as [[c0 E0]|E0]; rewrite E0;
      [|unfinished].
    destruct (np_column_cases 1 cp) as [[c1 E1]|E1]; rewrite E1;
      [|unfinished].
    destruct (np_column_cases 2 cp) as [[c2 E2]|E2]; rewrite E2;
      [|unfinished].
    unfinished.
Qed.

(** With a dimension other than 2 and 3 the two renderings differ: the
    metric-coloured one draws nothing and returns, the plain one reads
    the axes it never created and raises UnboundLocalError. *)
Theorem pcaSubplot_other_dimension (X_r : list (list F)) (dim : Z)
    (varData : list (pyval F)) (varName : option string) (PCs_round : list F)
    (labels template_list : list string) :
  dim ≠ 2%Z → dim ≠ 3%Z →
  pcaSubplot_vars X_r dim varData varName PCs_round labels template_list
  = ([], Ok tt)
  ∧ pcaSubplot X_r dim PCs_round labels template_list
    = ([], Raise UnboundLocalError).
Proof.
  intros Hd2 Hd3. unfold pcaSubplot_vars, pcaSubplot.
  destruct (split_templates labels varData X_r template_list) as [[tp cd] cp].
  rewrite !bool_decide_eq_false_2 by done. done.
Qed.

End Chart_more.

Section Extractor_filter.
Context {F : Type} `{!Numerics F}.

(** The residue filter counts as a set: two lists with the same members,
    in any order and with any repetition, give the same result. *)
Theorem getPDBcoord_filter_as_set (fs : gmap string (list string))
    (pdbPath : string) (resNumbers resNumbers' : list string) :
  (∀ r, r ∈ resNumbers ↔ r ∈ resNumbers') →
  getPDBcoord (F:=F) fs pdbPath resNumbers = getPDBcoord fs pdbPath resNumbers'.
Proof.
  intros Hsame. unfold getPDBcoord.
  destruct (fs !! pdbPath) as [lines|]; [|done].
  apply io_fold_ext. intros acc line _. unfold getPDBcoord_line.
  destruct (1 <? length (Py.split line))%nat; [|done].
  apply io_bind_ext. intros ll0. case_bool_decide; [|done].
  apply io_bind_ext. intros ll4.
  apply io_bind_ext. intros resCol.
  apply io_bind_ext. intros res.
  by rewrite (bool_decide_ext _ _ (Hsame res)).
Qed.

End Extractor_filter.

Lemma getPDBcoord_filter_as_set_sample :
  getPDBcoord (F:=string) Sample.fs "a.pdb" ["1"; "2"]
  = getPDBcoord Sample.fs "a.pdb" ["2"; "1"; "1"].
Proof.
  apply getPDBcoord_filter_as_set.
  intros r. rewrite !elem_of_cons, !elem_of_nil. tauto.
Defined.

(** *** Further charts of the sample run *)

Lemma plotPCAfig_other_dimension_sample :
  ∃ warning,
    plotPCAfig "run" "tanimoto" ["pose_a"; "pose_b"] 1 ["pose_a"] Sample.with_metric
    = (Sample.with_metric,
       ([Print [PStr "Explained variance ratio (first "; PInt 1;
                PStr " components): "; PNums ["0.5"]];
         Print [PStr "PCs rounded at "; PInt 2; PStr " decimals: ";
                PNums (round_pct <$> ["0.5"])]] ++ warning,
        Ok tt))
    ∧ (warning = [] ∨ warning = [Print [PStr missing_metric_msg]])
    ∧ (warning = [Print [PStr missing_metric_msg]]
       ↔ ∃ table, vars_data Sample.with_metric = Some table
                  ∧ table !! "tanimoto" = None).
Proof.
  apply (plotPCAfig_other_dimension Sample.with_metric "run" "tanimoto"
           ["pose_a"; "pose_b"] 1 ["pose_a"]
           [["11.104"; "13.207"; "2.100"]; ["11.104"; "13.207"; "2.100"]]
           [["11.104"]; ["11.104"]] ["0.5"]).
  - evaluated.
  - evaluated.
  - lia.
  - lia.
Defined.

Lemma plotPCAfig_writes_both_files_sample :
  ∃ drawn,
    (plotPCAfig "run" "tanimoto" ["pose_a"; ""] 2 ["pose_a"] Sample.with_metric).2.1
    = drawn
      ++ [Savefig ("run" +:+ (if bool_decide (2 = 2)%Z then "_PCA.svg"
                              else "_PCA3D.svg"));
          Savefig ("run" +:+ (if bool_decide (2 = 2)%Z then "_PCA.png"
                              else "_PCA3D.png"))]
    ∧ Forall (λ e : event string, ∀ fname, e ≠ Savefig fname) drawn
    ∧ ∃ title, Figure title ∈ drawn.
Proof.
  apply (plotPCAfig_writes_both_files Sample.with_metric "run" "tanimoto"
           ["pose_a"; ""] 2 ["pose_a"]
           [["11.104"; "13.207"; "2.100"]; ["11.104"; "13.207"; "2.100"]]).
  - evaluated.
  - by left.
  - evaluated.
Defined.

Lemma pcaSubplot_vars_needs_both_groups_sample :
  (pcaSubplot_vars [["11.104"; "13.207"]; ["11.104"; "13.207"]] 2
     [VNum "0.7"; VNum "0.3"] (Some "Tanimoto coefficient") ["0.5"; "0.5"]
     ["pose_a"; "pose_b"] []).2
  = Raise IndexError
  ∧ Forall (λ e, (∃ title, e = Figure title)
                 ∨ (∃ columns c, e = Scatter columns "o" c))
      (pcaSubplot_vars [["11.104"; "13.207"]; ["11.104"; "13.207"]] 2
         [VNum "0.7"; VNum "0.3"] (Some "Tanimoto coefficient") ["0.5"; "0.5"]
         ["pose_a"; "pose_b"] []).1.
Proof.
  apply pcaSubplot_vars_needs_both_groups.
  - by left.
  - left. evaluated.
Defined.

Lemma pcaSubplot_other_dimension_sample :
  pcaSubplot_vars [["11.104"]; ["11.104"]] 1 [VNum "0.7"; VNum "0.3"]
    (Some "Tanimoto coefficient") ["0.5"] ["pose_a"; "pose_b"] ["pose_a"]
  = ([], Ok tt)
  ∧ pcaSubplot [["11.104"]; ["11.104"]] 1 ["0.5"] ["pose_a"; "pose_b"] ["pose_a"]
    = ([], Raise UnboundLocalError).
Proof. apply pcaSubplot_other_dimension; lia. Defined.

(** The trace of the unfinished chart of the sample run. *)
Example sample_unfinished_chart :
  pcaSubplot_vars [["11.104"; "13.207"]; ["11.104"; "13.207"]] 2
    [VNum "0.7"; VNum "0.3"] (Some "Tanimoto coefficient") ["0.5"; "0.5"]
    ["pose_a"; "pose_b"] []
  = ([Figure "PCA 2D";
      Scatter [["11.104"; "11.104"]; ["13.207"; "13.207"]] "o"
        (Magma01 [VNum "0.7"; VNum "0.3"])],
     Raise IndexError).
Proof. evaluated. Qed.

(** * The plain chart in three dimensions *)

Section Plain_3d.
Context {F : Type} `{!Numerics F}.

Lemma column_cases (k : nat) (rows : list (list F)) :
  (∃ c, column k rows = io_ret c) ∨ column k rows = io_raise IndexError.
Proof. unfold column. destruct (mapM _ _); eauto. Qed.

Lemma pcaSubplot_3d_stops (X_r : list (list F)) (PCs_round : list F)
    (labels template_list : list string) :
  pcaSubplot X_r 3 PCs_round labels template_list
  = ([Figure "PCA 3D"], Raise AttributeError)
  ∨ pcaSubplot X_r 3 PCs_round labels template_list
    = ([Figure "PCA 3D"], Raise IndexError).
Proof.
  unfold pcaSubplot.
  rewrite (bool_decide_eq_false_2 (3 = 2)%Z), (bool_decide_eq_true_2 (3 = 3)%Z) by done.
  simpl. rewrite io_bind_ret_l.
  destruct (column_cases 0 X_r) as [[c0 E0]|E0]; rewrite E0; [|by right].
  destruct (column_cases 1 X_r) as [[c1 E1]|E1]; rewrite E1; [|by right].
  destruct (column_cases 2 X_r) as [[c2 E2]|E2]; rewrite E2; [|by right].
  by left.
Qed.

(** The plain chart in three dimensions is never drawn: the figure is
    opened and then the scatter call, or before it the reading of a
    column the projection does not have, raises; on a projection with
    three components the exception is AttributeError. *)
Theorem pcaSubplot_3d_never_drawn (X_r : list (list F)) (PCs_round : list F)
    (labels template_list : list string) :
  (pcaSubplot X_r 3 PCs_round labels template_list).1 = [Figure "PCA 3D"]
  ∧ ((pcaSubplot X_r 3 PCs_round labels template_list).2 = Raise AttributeError
     ∨ (pcaSubplot X_r 3 PCs_round labels template_list).2 = Raise IndexError)
  ∧ (Forall (λ r, 3 ≤ length r)%nat X_r →
     (pcaSubplot X_r 3 PCs_round labels template_list).2 = Raise AttributeError).
Proof.
  split; [|split].
  - by destruct (pcaSubplot_3d_stops X_r PCs_round labels template_list) as [-> | ->].
  - destruct (pcaSubplot_3d_stops X_r PCs_round labels template_list) as [-> | ->];
      auto.
  - intros Hrows. unfold pcaSubplot.
    rewrite (bool_decide_eq_false_2 (3 = 2)%Z), (bool_decide_eq_true_2 (3 = 3)%Z) by done.
    simpl. rewrite io_bind_ret_l.
    rewrite !column_all by (eapply Forall_impl; [exact Hrows|simpl; lia]).
    done.
Qed.

(** Without a metric table a chart in three dimensions cannot be
    produced: the run raises, the instance is as it was, and no file is
    saved. *)
Theorem plotPCAfig_3d_plain_fails (self : Self F) (projName metric : string)
    (labels templates : list string) (arr : list (list F)) :
  pcaCoordsArray self = Some arr →
  vars_data self = None →
  ∃ t e,
    plotPCAfig projName metric labels 3 templates self = (self, (t, Raise e))
    ∧ (e = ValueError ∨ e = AttributeError ∨ e = IndexError)
    ∧ Forall (λ ev : event F, ∀ fname, ev ≠ Savefig fname) t.
Proof.
  intros Harr Htable.
  destruct (pca_fit_transform 3 arr) as [[X_r ratio]|] eqn:Hpca.
  2: { exists [], ValueError. split; [|split; [by left|constructor]].
       unfold plotPCAfig. by rewrite m_bind_get, Harr, Hpca. }
  erewrite plotPCAfig_run; [|done..|by rewrite Htable].
  rewrite (bool_decide_eq_false_2 (3 = 2)%Z), (bool_decide_eq_true_2 (3 = 3)%Z) by done.
  unfold render, io_local. rewrite io_bind_ret_l.
  destruct (pcaSubplot_3d_stops X_r (round_pct <$> ratio) labels templates)
    as [-> | ->]; simpl; do 2 eexists; (split; [reflexivity|]);
    (split; [auto|repeat constructor; done]).
Qed.

End Plain_3d.

Lemma plotPCAfig_3d_plain_fails_sample :
  ∃ t e,
    plotPCAfig "run" "tanimoto" ["pose_a"; ""] 3 [] Sample.extracted
    = (Sample.extracted, (t, Raise e))
    ∧ (e = ValueError ∨ e = AttributeError ∨ e = IndexError)
    ∧ Forall (λ ev : event string, ∀ fname, ev ≠ Savefig fname) t.
Proof.
  apply (plotPCAfig_3d_plain_fails Sample.extracted "run" "tanimoto"
           ["pose_a"; ""] [] 
           [["11.104"; "13.207"; "2.100"]; ["11.104"; "13.207"; "2.100"]]);
    evaluated.
Defined.
